(** * The USID / dask.distributed benchmark notebook

    A shallow embedding of the code cells of [11_dask_distributed.ipynb]:
    the dataset download and load, the single-pixel test of
    [find_all_peaks], the three timed strategy cells (serial loop,
    [usid.parallel_compute], [dask.distributed]) and the benchmark plot.

    A cell is a computation over the kernel: the global namespace (a
    dictionary from names to values), the files of the working directory,
    the dask clients and matplotlib figures created so far, and the log of
    calls made to the outside world.  A statement that raises ends its cell;
    the bindings made before it stay in the namespace.

    Imported modules and functions ([os], [time], [wget], [h5py], [usid],
    [plt], [np], [Client], [find_all_peaks]) are ambient: the import cell is
    taken to have run, and only data names live in the namespace. *)

From Stdlib Require Import ZArith List String Lia.
From stdpp Require Import base option gmap strings list.

Open Scope string_scope.
Open Scope Z_scope.
Open Scope list_scope.

Set Warnings "-register-all".

(** ** Data *)

Inductive exn :=
| NameError (name : string)
| TypeError (what : string)
| IndexError (what : string)
| KeyError (key : string)
| ValueError (what : string)
| OSError (what : string)
| ExternalError (what : string)
| DetectionFailed (rowIndex : nat).

Inductive outcome (A : Type) := Ok (a : A) | Raise (e : exn).
Arguments Ok {A} a.
Arguments Raise {A} e.

Definition is_ok {A} (o : outcome A) : bool :=
  match o with Ok _ => true | Raise _ => false end.

Inductive conn := Connected | Disconnected.

Section Notebook.

(** One sample of a spectrum (a complex number in the measured file).  The
    notebook never looks inside a sample. *)
Context {sample : Type}.

Definition row : Type := list sample.

(** An HDF5 dataset: its rows, and the sizes of its position dimensions when
    it carries the USID ancillary datasets ([None] when it does not). *)
Record dataset := Dataset {
  ds_rows : list row;
  ds_pos_dim_sizes : option (list Z)
}.

Inductive h5node :=
| H5Group (children : list (string * h5node))
| H5Dataset (d : dataset).

(** Python values bound in the namespace. *)
Inductive value :=
| VNone
| VInt (n : Z)
| VTime (t : Z)                     (* seconds as read from the clock *)
| VStr (s : string)
| VList (l : list value)
| VKwargs (kw : list (string * value))
| VIndices (l : list Z)             (* the peak indices of one row *)
| VVector (r : row)                 (* 1-D array of samples *)
| VArray (a : list row)             (* 2-D array of samples *)
| VH5 (n : h5node)                  (* h5py File, Group or Dataset *)
| VUSID (d : dataset)               (* usid.USIDataset *)
| VFig (id : nat)
| VAxis (id : nat)
| VClient (id : nat)
| VRemote (handle : nat).           (* a value owned by dask *)

(** The calls recorded on a matplotlib figure. *)
Inductive plot_call :=
| PScatterSpectrum (spectra : row)  (* scatter(arange(len(spectra)), abs(spectra), c='black') *)
| PScatter (x y : value) (c : string)
| PAxVLine (x : Z) (color : string)
| PSetYLimSpectrum (spectra : row)  (* set_ylim([0, 1.1 * max(abs(spectra))]) *)
| PSetTitle (arg : value)
| PSetXLabel (text : string)
| PSetYLabel (text : string)
| PLegend
| PTightLayout.

Inductive content :=
| H5 (root : h5node)
| Png (calls : list plot_call)
| Blob (data : string).

Inductive node := File (c : content) | Dir.

Inductive event :=
| EvClock                           (* time.time() *)
| EvRemove (path : string)
| EvDownload (url path : string)
| EvOpen (path : string)
| EvReadAll                         (* h5_main[()] *)
| EvReadRow (i : Z)                 (* h5_main[i] *)
| EvDetect (vector : row)           (* find_all_peaks(vector, ...) *)
| EvParallel (cores : Z)
| EvConnect (c : nat)
| EvScatter (c : nat)
| EvMap (c : nat)
| EvGather (c : nat)
| EvNcores (c : nat)
| EvClose (c : nat)
| EvSavefig (path : string).

(** What the notebook calls but does not define. *)
Record World := {
  (* the file served at a URL; None when it cannot be fetched *)
  remote : string -> option content;
  (* the name wget writes to when its target name is taken *)
  wget_fix_existing : gmap string node -> string -> string;
  (* peak_finding.find_all_peaks(vector, width_bounds, num_steps) *)
  find_all_peaks : row -> list Z -> Z -> outcome (list Z);
  (* the wall clock, as a function of what has happened so far *)
  clock : list event -> Z;
  (* str.format on a value that is not a str *)
  py_repr : value -> string;
  (* dask.distributed *)
  dask_Client : option exn;
  dask_scatter : value -> outcome value;
  dask_map : value -> value -> value -> outcome value;
  dask_gather : value -> outcome value;
  dask_ncores : outcome value;
  dask_close : option exn
}.

(** ** The kernel and its monad *)

Record state := State {
  ns : gmap string value;
  fs : gmap string node;
  clients : list conn;
  figs : list (list plot_call);
  trace : list event
}.

Definition with_ns (f : gmap string value -> gmap string value) (s : state) : state :=
  State (f (ns s)) (fs s) (clients s) (figs s) (trace s).
Definition with_fs (f : gmap string node -> gmap string node) (s : state) : state :=
  State (ns s) (f (fs s)) (clients s) (figs s) (trace s).
Definition with_clients (f : list conn -> list conn) (s : state) : state :=
  State (ns s) (fs s) (f (clients s)) (figs s) (trace s).
Definition with_figs (f : list (list plot_call) -> list (list plot_call)) (s : state) : state :=
  State (ns s) (fs s) (clients s) (f (figs s)) (trace s).
Definition log (e : event) (s : state) : state :=
  State (ns s) (fs s) (clients s) (figs s) (trace s ++ [e]).

Definition Py (A : Type) : Type := state -> outcome A * state.

#[export] Instance Py_ret : MRet Py := fun A a s => (Ok a, s).
#[export] Instance Py_bind : MBind Py := fun A B f m s =>
  match m s with
  | (Ok a, s') => f a s'
  | (Raise e, s') => (Raise e, s')
  end.

Definition raise {A} (e : exn) : Py A := fun s => (Raise e, s).
Definition lift {A} (o : outcome A) : Py A := fun s => (o, s).
Definition emit (e : event) : Py unit := fun s => (Ok tt, log e s).

(** Reading a name that is not bound raises NameError. *)
Definition get (x : string) : Py value := fun s =>
  match ns s !! x with
  | Some v => (Ok v, s)
  | None => (Raise (NameError x), s)
  end.

Definition set (x : string) (v : value) : Py unit := fun s =>
  (Ok tt, with_ns (insert x v) s).

Variable W : World.

(** ** Library calls *)

(** time.time() *)
Definition time_time : Py Z := fun s =>
  (Ok (clock W (trace s)), log EvClock s).

(** os.path.exists(path): true for files and for directories. *)
Definition os_path_exists (path : string) : Py bool := fun s =>
  (Ok (bool_decide (is_Some (fs s !! path))), s).

(** os.remove(path): deletes a file; raises on a directory or a missing path. *)
Definition os_remove (path : string) : Py unit := fun s =>
  match fs s !! path with
  | Some (File _) => (Ok tt, log (EvRemove path) (with_fs (delete path) s))
  | Some Dir => (Raise (OSError "IsADirectoryError"), s)
  | None => (Raise (OSError "FileNotFoundError"), s)
  end.

(** wget.download(url, out, bar=None): fetches the URL and moves the fetched
    file to [out], or, when something is at [out] already, to the name wget
    makes up from it; returns the name written. *)
Definition wget_download (url out : string) : Py string := fun s =>
  match remote W url with
  | None => (Raise (ExternalError "wget.download"), s)
  | Some c =>
      let filename :=
        if bool_decide (is_Some (fs s !! out))
        then wget_fix_existing W (fs s) out else out in
      (Ok filename,
       log (EvDownload url filename) (with_fs (insert filename (File c)) s))
  end.

(** h5py.File(path, mode='r') *)
Definition h5py_File (path : string) : Py h5node := fun s =>
  match fs s !! path with
  | Some (File (H5 root)) => (Ok root, log (EvOpen path) s)
  | Some (File _) => (Raise (OSError "not an HDF5 file"), s)
  | Some Dir => (Raise (OSError "IsADirectoryError"), s)
  | None => (Raise (OSError "FileNotFoundError"), s)
  end.

Fixpoint assoc {A : Type} (key : string) (l : list (string * A)) : option A :=
  match l with
  | [] => None
  | (k, a) :: rest => if String.eqb k key then Some a else assoc key rest
  end.

(** node[name] for one path component *)
Definition h5_getitem (n : h5node) (name : string) : outcome h5node :=
  match n with
  | H5Group children =>
      match assoc name children with
      | Some child => Ok child
      | None => Raise (KeyError name)
      end
  | H5Dataset _ => Raise (TypeError "dataset indexed by name")
  end.

(** node['a/b/...'], the path given by its components *)
Fixpoint h5_getpath (n : h5node) (path : list string) : outcome h5node :=
  match path with
  | [] => Ok n
  | name :: rest =>
      match h5_getitem n name with
      | Ok child => h5_getpath child rest
      | Raise e => Raise e
      end
  end.

(** usid.USIDataset(h5_dataset) *)
Definition USIDataset (n : h5node) : outcome dataset :=
  match n with
  | H5Dataset d =>
      match ds_pos_dim_sizes d with
      | Some _ => Ok d
      | None => Raise (TypeError "not a USID main dataset")
      end
  | H5Group _ => Raise (TypeError "not a dataset")
  end.

(** The value bound to [name], when it is a USIDataset. *)
Definition get_usid (name : string) : Py dataset :=
  v ← get name;
  match v with
  | VUSID d => mret d
  | _ => raise (TypeError name)
  end.

(** h5_main[()]: the whole dataset read into memory *)
Definition read_all : Py (list row) :=
  d ← get_usid "h5_main";
  emit EvReadAll;;
  mret (ds_rows d).

(** a[i] on a sequence, negative indices counting from the end *)
Definition py_index {A : Type} (what : string) (l : list A) (i : Z) : outcome A :=
  let n := Z.of_nat (length l) in
  let j := if i <? 0 then i + n else i in
  if (0 <=? j) && (j <? n) then
    match l !! Z.to_nat j with
    | Some a => Ok a
    | None => Raise (IndexError what)
    end
  else Raise (IndexError what).

(** h5_main[i]: one row *)
Definition read_row (i : Z) : Py row :=
  d ← get_usid "h5_main";
  emit (EvReadRow i);;
  lift (py_index "h5_main[pixel_ind]" (ds_rows d) i).

(** find_all_peaks(vector, [20, 60], num_steps=30), the call every strategy
    makes on a row *)
Definition detect (vector : row) : outcome (list Z) :=
  find_all_peaks W vector [20; 60] 30.

Definition call_find_all_peaks (vector : row) : Py (list Z) :=
  emit (EvDetect vector);;
  lift (detect vector).

(** The clock reading bound to [name]. *)
Definition get_time (name : string) : Py Z :=
  v ← get name;
  match v with
  | VTime t => mret t
  | _ => raise (TypeError name)
  end.

(** fig, axis = plt.subplots(): a new, current figure *)
Definition plt_subplots : Py nat := fun s =>
  (Ok (length (figs s)), with_figs (fun fl => fl ++ [[]]) s).

(** a plotting call on figure [id] *)
Definition plot (id : nat) (c : plot_call) : Py unit := fun s =>
  match figs s !! id with
  | Some calls => (Ok tt, with_figs (fun fl => <[id := calls ++ [c]]> fl) s)
  | None => (Raise (ValueError "no such figure"), s)
  end.

(** a pyplot call, which acts on the current (latest) figure *)
Definition plot_current (c : plot_call) : Py unit := fun s =>
  match last (figs s) with
  | None => plot 0%nat c (with_figs (fun fl => fl ++ [[]]) s)
  | Some _ => plot (Nat.pred (length (figs s))) c s
  end.

(** '{}'.format(v) *)
Definition py_format (v : value) : string :=
  match v with
  | VStr s => s
  | _ => py_repr W v
  end.

(** plt.savefig(path): writes the current figure *)
Definition plt_savefig (path : string) : Py unit := fun s =>
  match fs s !! path with
  | Some Dir => (Raise (OSError "IsADirectoryError"), s)
  | _ =>
      (Ok tt,
       log (EvSavefig path)
         (with_fs (insert path (File (Png (default [] (last (figs s)))))) s))
  end.

(** *** usid.parallel_compute *)

(** Modelled from the spec: the rows handed to the worker pool, each with
    its row index. *)
Definition indexed {A : Type} (l : list A) : list (nat * A) :=
  imap (fun i x => (i, x)) l.

(** Modelled from the spec: the rows partitioned across [c] workers; row [i]
    goes to worker [i mod c]. *)
Definition partition {A : Type} (c : nat) (l : list A) : list (list (nat * A)) :=
  map (fun w => filter (fun p => (p.1 mod c)%nat = w) (indexed l)) (seq 0 c).

(** Modelled from the spec: one worker processes its partition serially and
    stops at the first row on which the function fails, which it reports as
    DetectionFailed(rowIndex). *)
Fixpoint worker (func : row -> outcome (list Z)) (part : list (nat * row))
  : outcome (list (nat * list Z)) :=
  match part with
  | [] => Ok []
  | (i, r) :: rest =>
      match func r with
      | Ok p =>
          match worker func rest with
          | Ok ps => Ok ((i, p) :: ps)
          | Raise e => Raise e
          end
      | Raise _ => Raise (DetectionFailed i)
      end
  end.

(** Modelled from the spec: the batch fails when a worker has failed
    (fail-fast); otherwise the workers' results are gathered. *)
Fixpoint gather_workers (outs : list (outcome (list (nat * list Z))))
  : outcome (list (nat * list Z)) :=
  match outs with
  | [] => Ok []
  | Ok ps :: rest =>
      match gather_workers rest with
      | Ok qs => Ok (ps ++ qs)
      | Raise e => Raise e
      end
  | Raise e :: _ => Raise e
  end.

(** Modelled from the spec: the gathered result that carries row index [i]. *)
Fixpoint result_of_row (i : nat) (gathered : list (nat * list Z)) : option (list Z) :=
  match gathered with
  | [] => None
  | (j, p) :: rest => if Nat.eqb j i then Some p else result_of_row i rest
  end.

(** Modelled from the spec: the results reassembled in row order, element
    [i] being the result computed for row [i]. *)
Fixpoint reassemble (indices : list nat) (gathered : list (nat * list Z))
  : outcome (list (list Z)) :=
  match indices with
  | [] => Ok []
  | i :: rest =>
      match result_of_row i gathered with
      | Some p =>
          match reassemble rest gathered with
          | Ok ps => Ok (p :: ps)
          | Raise e => Raise e
          end
      | None => Raise (ValueError "row without a result")
      end
  end.

(** Modelled from the spec: [usid.parallel_compute(data, func, cores=cores,
    func_args, func_kwargs)] is a function of the pyUSID package, of which
    the notebook holds only the call.  The spec's LocalMultiCore strategy:
    the rows are partitioned across a pool of [cores] workers, each worker
    processes its partition serially, a single worker failure fails the
    whole batch as DetectionFailed(rowIndex), and the results are gathered
    and reassembled in the original row order. *)
Definition parallel_compute (data : list row) (func : row -> outcome (list Z))
    (cores : Z) : outcome (list (list Z)) :=
  match gather_workers (map (worker func) (partition (Z.to_nat cores) data)) with
  | Ok gathered => reassemble (seq 0 (length data)) gathered
  | Raise e => Raise e
  end.

(** usid.parallel_compute(raw_data, find_all_peaks, cores=cores,
    func_args=args, func_kwargs=kwargs): every row goes through
    find_all_peaks(row, [20, 60], num_steps=30). *)
Definition usid_parallel_compute (data : list row) (cores : Z) : Py (list (list Z)) :=
  emit (EvParallel cores);;
  lift (parallel_compute data detect cores).

(** *** dask.distributed *)

(** Client(processes=False) *)
Definition Client : Py nat := fun s =>
  let c := length (clients s) in
  match dask_Client W with
  | Some e => (Raise e, log (EvConnect c) s)
  | None => (Ok c, log (EvConnect c) (with_clients (fun cl => cl ++ [Connected]) s))
  end.

(** client.scatter, client.map, client.gather, client.ncores *)
Definition client_call (ev : event) (o : outcome value) : Py value :=
  emit ev;; lift o.

(** client.close(): the client is disconnected when the call returns. *)
Definition client_close (c : nat) : Py unit := fun s =>
  match dask_close W with
  | Some e => (Raise e, log (EvClose c) s)
  | None => (Ok tt, log (EvClose c) (with_clients (fun cl => <[c := Disconnected]> cl) s))
  end.

(** ** The cells *)

Definition url : string :=
  "https://raw.githubusercontent.com/pycroscopy/pyUSID/master/data/BELine_0004.h5".
Definition h5_path : string := "temp.h5".

(** if os.path.exists(h5_path): os.remove(h5_path) *)
Definition remove_stale : Py unit :=
  b ← os_path_exists h5_path;
  if (b : bool) then os_remove h5_path else mret tt.

(** "Find main dataset" *)
Definition cell_load : Py unit :=
  set "url" (VStr url);;
  set "h5_path" (VStr h5_path);;
  remove_stale;;
  name ← wget_download url h5_path;
  set "_" (VStr name);;
  h5_file ← h5py_File h5_path;
  set "h5_file" (VH5 h5_file);;
  h5_meas_grp ← lift (h5_getitem h5_file "Measurement_000");
  set "h5_meas_grp" (VH5 h5_meas_grp);;
  raw ← lift (h5_getpath h5_meas_grp ["Channel_000"; "Raw_Data"]);
  h5_main ← lift (USIDataset raw);
  set "h5_main" (VUSID h5_main);;
  match ds_pos_dim_sizes h5_main with
  | Some [num_rows; num_cols] =>
      set "num_rows" (VInt num_rows);;
      set "num_cols" (VInt num_cols)
  | _ => raise (ValueError "unpack")
  end.

(** "Test find_all_peaks" *)
Definition cell_test : Py unit :=
  set "row_ind" (VInt 110);;
  set "col_ind" (VInt 25);;
  nc ← get "num_cols";
  num_cols ← match nc with VInt n => mret n | _ => raise (TypeError "num_cols") end;
  let pixel_ind := 25 + 110 * num_cols in
  set "pixel_ind" (VInt pixel_ind);;
  spectra ← read_row pixel_ind;
  set "spectra" (VVector spectra);;
  peak_inds ← call_find_all_peaks spectra;
  set "peak_inds" (VIndices peak_inds);;
  fig ← plt_subplots;
  set "fig" (VFig fig);;
  set "axis" (VAxis fig);;
  plot fig (PScatterSpectrum spectra);;
  p0 ← lift (py_index "peak_inds[0]" peak_inds 0);
  plot fig (PAxVLine p0 "r");;
  (match spectra with
   | [] => raise (ValueError "max of an empty array")
   | _ => plot fig (PSetYLimSpectrum spectra)
   end);;
  plot fig (PSetTitle (VIndices peak_inds)).

(** The function applied to every row in order, stopping at the first
    failure: the results the serial loop collects. *)
Fixpoint detect_all (func : row -> outcome (list Z)) (rows : list row)
  : outcome (list (list Z)) :=
  match rows with
  | [] => Ok []
  | r :: rest =>
      match func r with
      | Ok p =>
          match detect_all func rest with
          | Ok ps => Ok (p :: ps)
          | Raise e => Raise e
          end
      | Raise e => Raise e
      end
  end.

(** serial_results.append(v) *)
Definition append (name : string) (v : value) : Py unit :=
  l ← get name;
  match l with
  | VList vs => set name (VList (vs ++ [v]))
  | _ => raise (TypeError name)
  end.

(** for vector in raw_data: serial_results.append(find_all_peaks(...)) *)
Fixpoint serial_loop (raw_data : list row) : Py unit :=
  match raw_data with
  | [] => mret tt
  | vector :: rest =>
      set "vector" (VVector vector);;
      p ← call_find_all_peaks vector;
      append "serial_results" (VIndices p);;
      serial_loop rest
  end.

(** time_x = time.time() - start *)
Definition stop_clock (name : string) : Py unit :=
  t ← time_time;
  start ← get_time "start";
  set name (VTime (t - start)).

(** "Compute Serially" *)
Definition cell_serial : Py unit :=
  start ← time_time;
  set "start" (VTime start);;
  raw_data ← read_all;
  set "raw_data" (VArray raw_data);;
  set "serial_results" (VList []);;
  serial_loop raw_data;;
  stop_clock "time_serial";;
  set "core_serial" (VInt 1).

(** "Compute using pyUSID parallel_compute() function", for a given value
    of the literal [cores]. *)
Definition cell_parallel_with (cores : Z) : Py unit :=
  start ← time_time;
  set "start" (VTime start);;
  raw_data ← read_all;
  set "raw_data" (VArray raw_data);;
  set "args" (VList [VList [VInt 20; VInt 60]]);;
  set "kwargs" (VKwargs [("num_steps", VInt 30)]);;
  set "cores" (VInt cores);;
  parallel_results ← usid_parallel_compute raw_data cores;
  set "parallel_results" (VList (map VIndices parallel_results));;
  stop_clock "time_parallel";;
  set "cores_parallel" (VInt cores).

(** The cell as it is written: cores = 3. *)
Definition cell_parallel : Py unit := cell_parallel_with 3.

(** "Compute using Dask" *)
Definition cell_dask : Py unit :=
  start ← time_time;
  set "start" (VTime start);;
  raw_data ← read_all;
  set "raw_data" (VArray raw_data);;
  let args := VList [VInt 20; VInt 60] in
  set "args" args;;
  let kwargs := VKwargs [("num_steps", VInt 30)] in
  set "kwargs" kwargs;;
  client ← Client;
  set "client" (VClient client);;
  scattered ← client_call (EvScatter client) (dask_scatter W (VArray raw_data));
  set "raw_data" scattered;;
  raw_data_list ← get "raw_data_list";
  L ← client_call (EvMap client) (dask_map W raw_data_list args kwargs);
  set "L" L;;
  dask_results ← client_call (EvGather client) (dask_gather W L);
  set "dask_results" dask_results;;
  cores_dask ← client_call (EvNcores client) (dask_ncores W);
  set "cores_dask" cores_dask;;
  client_close client;;
  stop_clock "time_dask".

(** axis.scatter(x, y, c=color), the two names read in this order *)
Definition scatter_names (fig : nat) (x y color : string) : Py unit :=
  vx ← get x;
  vy ← get y;
  plot fig (PScatter vx vy color).

(** "Plot benchmarks" *)
Definition cell_plot : Py unit :=
  fig ← plt_subplots;
  set "fig" (VFig fig);;
  set "axis" (VAxis fig);;
  scatter_names fig "core_serial" "time_serial" "blue";;
  scatter_names fig "cores_parallel" "time_parallel" "green";;
  scatter_names fig "cores_dask" "time_dask" "red";;
  plot fig (PSetXLabel "CPU cores");;
  plot fig (PSetYLabel "Compute time (sec)");;
  plot_current PLegend;;
  plot fig PTightLayout;;
  png_name ← get "png_name";
  plt_savefig (py_format png_name +:+ ".png").

(** ** Running the notebook *)

Definition notebook : list (Py unit) :=
  [cell_load; cell_test; cell_serial; cell_parallel; cell_dask; cell_plot].

(** Run All: cells in order, stopping at the first one that raises. *)
Fixpoint run_all (cells : list (Py unit)) : Py unit :=
  match cells with
  | [] => mret tt
  | c :: rest => c;; run_all rest
  end.

(** Every cell run by hand in order, whatever the previous ones did. *)
Fixpoint run_each (cells : list (Py unit)) (s : state) : list (outcome unit) * state :=
  match cells with
  | [] => ([], s)
  | c :: rest =>
      let (o, s') := c s in
      let (os, s'') := run_each rest s' in
      (o :: os, s'')
  end.

(** A kernel that has run nothing yet, in a working directory [files]. *)
Definition fresh (files : gmap string node) : state :=
  State ∅ files [] [] [].

(** The names the serial cell assigns. *)
Definition serial_names : list string :=
  ["start"; "raw_data"; "serial_results"; "vector"; "time_serial"; "core_serial"].

(** The names the parallel_compute cell assigns. *)
Definition parallel_names : list string :=
  ["start"; "raw_data"; "args"; "kwargs"; "cores"; "parallel_results";
   "time_parallel"; "cores_parallel"].

(** The names the plot cell reads. *)
Definition plot_inputs : list string :=
  ["core_serial"; "time_serial"; "cores_parallel"; "time_parallel";
   "cores_dask"; "time_dask"; "png_name"].

(** Every index of a peak list lies inside its row. *)
Definition in_row (r : row) (peaks : list Z) : Prop :=
  Forall (fun i => 0 <= i < Z.of_nat (length r)) peaks.

(** The detector's contract on its result. *)
Definition detector_contract : Prop :=
  forall r width_bounds num_steps peaks,
    find_all_peaks W r width_bounds num_steps = Ok peaks -> in_row r peaks.

End Notebook.

Arguments row : clear implicits.
Arguments dataset : clear implicits.
Arguments h5node : clear implicits.
Arguments value : clear implicits.
Arguments plot_call : clear implicits.
Arguments content : clear implicits.
Arguments node : clear implicits.
Arguments event : clear implicits.
Arguments World : clear implicits.
Arguments state : clear implicits.
Arguments Py : clear implicits.

(** ** Concrete kernels and worlds *)

Module Example.

(** A USID file whose main dataset is [d]. *)
Definition file_of (d : dataset Z) : content Z :=
  H5 (H5Group [("Measurement_000",
        H5Group [("Channel_000",
          H5Group [("Raw_Data", H5Dataset d)])])]).

(** Three rows of length ten. *)
Definition three_rows : dataset Z :=
  Dataset (replicate 3 [0; 1; 2; 3; 9; 3; 2; 1; 0; 0]) (Some [3; 1]).

(** No rows at all. *)
Definition no_rows : dataset Z := Dataset [] (Some [0; 0]).

(** 136 rows on a 136 x 1 grid, so that pixel (110, 25) exists. *)
Definition grid_rows : dataset Z :=
  Dataset (replicate 136 [0; 1; 0]) (Some [136; 1]).

(** A world in which every library call succeeds: the URL serves the file
    of [d], the detector is [detect], the clock counts the calls made. *)
Definition world (d : dataset Z) (detect : row Z -> outcome (list Z)) : World Z :=
  {| remote := fun u => if String.eqb u url then Some (file_of d) else None;
     wget_fix_existing := fun _ out => out +:+ " (1)";
     find_all_peaks := fun r _ _ => detect r;
     clock := fun tr => Z.of_nat (length tr);
     py_repr := fun _ => "<object>";
     dask_Client := None;
     dask_scatter := fun _ => Ok (VRemote 0);
     dask_map := fun _ _ _ => Ok (VRemote 1);
     dask_gather := fun _ => Ok (VRemote 2);
     dask_ncores := Ok (VInt 4);
     dask_close := None |}.

(** The same world with a cluster whose gather fails. *)
Definition world_gather_fails (d : dataset Z) (detect : row Z -> outcome (list Z))
  : World Z :=
  let w := world d detect in
  {| remote := remote w;
     wget_fix_existing := wget_fix_existing w;
     find_all_peaks := find_all_peaks w;
     clock := clock w;
     py_repr := py_repr w;
     dask_Client := None;
     dask_scatter := dask_scatter w;
     dask_map := dask_map w;
     dask_gather := fun _ => Raise (ExternalError "gather");
     dask_ncores := dask_ncores w;
     dask_close := None |}.

(** The same world with a client whose close fails. *)
Definition world_close_fails (d : dataset Z) (detect : row Z -> outcome (list Z))
  : World Z :=
  let w := world d detect in
  {| remote := remote w;
     wget_fix_existing := wget_fix_existing w;
     find_all_peaks := find_all_peaks w;
     clock := clock w;
     py_repr := py_repr w;
     dask_Client := None;
     dask_scatter := dask_scatter w;
     dask_map := dask_map w;
     dask_gather := dask_gather w;
     dask_ncores := dask_ncores w;
     dask_close := Some (ExternalError "close") |}.

(** Detectors: one peak at index 4, one peak in the middle of the row, no
    peak, failure on every row. *)
Definition peak_at_4 : row Z -> outcome (list Z) := fun _ => Ok [4].
Definition peak_in_middle : row Z -> outcome (list Z) :=
  fun r => Ok (match r with [] => [] | _ => [Z.of_nat (length r) / 2] end).
Definition no_peak : row Z -> outcome (list Z) := fun _ => Ok [].
Definition broken : row Z -> outcome (list Z) :=
  fun _ => Raise (ValueError "find_all_peaks").

(** The kernel after the load cell, started fresh in an empty directory. *)
Definition loaded (w : World Z) : state Z := (cell_load w (fresh ∅)).2.

(** The same kernel with [png_name] bound by the caller. *)
Definition named (w : World Z) : state Z :=
  with_ns (insert "png_name" (VStr "benchmark")) (loaded w).

(** The same kernel with [raw_data_list] bound by hand as well. *)
Definition patched (w : World Z) : state Z :=
  with_ns (insert "raw_data_list" (VList [])) (named w).

(** The strategy cells and the plot cell, in the notebook's order. *)
Definition benchmark (w : World Z) : list (Py Z unit) :=
  [cell_serial w; cell_parallel w; cell_dask w; cell_plot w].

Definition w_peaks : World Z := world three_rows peak_at_4.
Definition w_middle : World Z := world three_rows peak_in_middle.
Definition w_empty : World Z := world no_rows peak_at_4.
Definition w_grid : World Z := world grid_rows no_peak.
Definition w_broken : World Z := world three_rows broken.
Definition w_gather : World Z := world_gather_fails three_rows peak_at_4.
Definition w_close : World Z := world_close_fails three_rows peak_at_4.

(** A working directory in which an earlier download was left behind. *)
Definition stale : state Z := fresh {[ "temp.h5" := File (Blob "old") ]}.

(** The kernel just before the dask cell, [png_name] given by the caller. *)
Definition before_dask : state Z :=
  (cell_parallel w_peaks (cell_serial w_peaks (named w_peaks)).2).2.

(** The benchmark with a detector that raises, every cell run by hand, and
    under Run All. *)
Definition broken_by_hand : list (outcome unit) * state Z :=
  run_each (benchmark w_broken) (patched w_broken).
Definition broken_run_all : outcome unit * state Z :=
  run_all (benchmark w_broken) (patched w_broken).

(** The benchmark of the three-row dataset, [png_name] given by the caller. *)
Definition peaks_by_hand : list (outcome unit) * state Z :=
  run_each (benchmark w_peaks) (named w_peaks).

End Example.


(** ** Further kernels and worlds *)
Module Scenario.
Import Example.

(** A world in which the download fails. *)
Definition offline : World Z :=
  {| remote := fun _ => None;
     wget_fix_existing := wget_fix_existing w_peaks;
     find_all_peaks := find_all_peaks w_peaks;
     clock := clock w_peaks;
     py_repr := py_repr w_peaks;
     dask_Client := None;
     dask_scatter := dask_scatter w_peaks;
     dask_map := dask_map w_peaks;
     dask_gather := dask_gather w_peaks;
     dask_ncores := dask_ncores w_peaks;
     dask_close := None |}.

(** A working directory with an earlier download and a file of the user's. *)
Definition with_notes : state Z :=
  fresh {[ "temp.h5" := File (Blob "old"); "notes.txt" := File (Blob "notes") ]}.

(** A working directory in which temp.h5 is a directory. *)
Definition blocked : state Z := fresh {[ "temp.h5" := Dir ]}.

(** The 136 x 1 grid with a detector that finds the middle of each row. *)
Definition w_grid_peak : World Z := world grid_rows peak_in_middle.

(** Three rows of which the second is flat, and a detector that raises on a
    flat row. *)
Definition flat_second : dataset Z :=
  Dataset [[0; 1; 0]; [0; 0; 0]; [0; 2; 0]] (Some [3; 1]).
Definition rejects_flat : row Z -> outcome (list Z) :=
  fun r => if forallb (Z.eqb 0) r then Raise (ValueError "find_all_peaks")
           else Ok [1].
Definition w_flat : World Z := world flat_second rejects_flat.


End Scenario.


(** ** The import cell *)

(** The first code cell, "Prepare the modules".  What it does depends on the
    names already bound in the kernel and on the modules that [import] can
    find; it changes both, and it may warn and run pip in a subprocess. *)
Module Imports.

(** What a global name is bound to, as far as the cell can tell. *)
Inductive binding :=
| Module (name : string)              (* import name *)
| Member (module name : string)       (* from module import name *)
| Function (name : string)            (* def name(...) *)
| Str (s : string).                   (* a string *)

(** A failed [import] raises ImportError, which the cell's [try] statements
    catch; every other exception ends the cell. *)
Inductive failure :=
| ImportError (module : string)
| AttributeError (attr : string)
| Python (e : exn).

Inductive effect :=
| Warn (message : string)             (* warn(message) *)
| Pip (package : string)              (* python -m pip install package *)
| PathAppend (dir : string).          (* sys.path.append(dir) *)

Record kernel := Kernel {
  bound : gmap string binding;        (* the global names *)
  importable : gset string;           (* the modules import can find *)
  effects : list effect
}.

(** A statement ends normally ([None]) or raises. *)
Definition stmt : Type := kernel -> option failure * kernel.

Definition skip : stmt := fun k => (None, k).

Definition throw (f : failure) : stmt := fun k => (Some f, k).

Definition then_ (a b : stmt) : stmt := fun k =>
  match a k with
  | (None, k') => b k'
  | (Some f, k') => (Some f, k')
  end.

Infix ">>" := then_ (at level 60, right associativity).

Definition bind_name (name : string) (b : binding) : stmt := fun k =>
  (None, Kernel (<[name := b]> (bound k)) (importable k) (effects k)).

(** Reading a global name. *)
Definition read (name : string) (body : binding -> stmt) : stmt := fun k =>
  match bound k !! name with
  | Some b => body b k
  | None => (Some (Python (NameError name)), k)
  end.

(** name.attr, where the attribute is one that only [module] has. *)
Definition attribute_of (module attr : string) (b : binding) : stmt :=
  match b with
  | Module m => if bool_decide (m = module) then skip
                else throw (AttributeError attr)
  | _ => throw (AttributeError attr)
  end.

Definition do (e : effect) : stmt := fun k =>
  (None, Kernel (bound k) (importable k) (effects k ++ [e])).

(** import module as name, for a module of the standard library, which is
    always found, and for any other module. *)
Definition import_std (module name : string) : stmt :=
  bind_name name (Module module).

Definition import_as (module name : string) : stmt := fun k =>
  if bool_decide (module ∈ importable k) then bind_name name (Module module) k
  else (Some (ImportError module), k).

(** from module import names *)
Fixpoint bind_members (module : string) (names : list string) : stmt :=
  match names with
  | [] => skip
  | name :: rest => bind_name name (Member module name) >> bind_members module rest
  end.

Definition from_std (module : string) (names : list string) : stmt :=
  bind_members module names.

Definition from_import (module : string) (names : list string) : stmt := fun k =>
  if bool_decide (module ∈ importable k) then bind_members module names k
  else (Some (ImportError module), k).

(** warn(message) *)
Definition warn (message : string) : stmt :=
  read "warn" (fun _ => do (Warn message)).

(** The argument of a call of [install]: a global name, or a string
    literal. *)
Inductive argument := ArgName (name : string) | ArgStr (literal : string).

Definition eval (a : argument) (body : binding -> stmt) : stmt :=
  match a with
  | ArgName n => read n body
  | ArgStr s => body (Str s)
  end.

Section Cell.

(** The modules that [pip install package] makes importable (none when it
    fails). *)
Variable pip_installs : string -> list string.

(** def install(package):
        subprocess.call([sys.executable, "-m", "pip", "install", package])
    The globals [subprocess] and [sys] are read when the body runs; the
    command line must be made of strings; the exit status is dropped. *)
Definition install_body (package : binding) : stmt :=
  read "subprocess" (fun sp => attribute_of "subprocess" "call" sp >>
  read "sys" (fun sy => attribute_of "sys" "executable" sy >>
  match package with
  | Str p => fun k =>
      (None, Kernel (bound k) (list_to_set (pip_installs p) ∪ importable k)
               (effects k ++ [Pip p]))
  | _ => throw (Python (TypeError "expected str"))
  end)).

(** install(package) *)
Definition install (package : argument) : stmt :=
  read "install" (fun _ => eval package install_body).

(** try:
        import module as name
    except ImportError:
        warn(message); import pip; install(package); import module as name *)
Definition import_or_install (module name message : string) (package : argument)
  : stmt := fun k =>
  if bool_decide (module ∈ importable k) then bind_name name (Module module) k
  else (warn message >>
        import_as "pip" "pip" >>
        install package >>
        import_as module name) k.

Definition cell_import : stmt :=
  from_std "__future__"
    ["division"; "print_function"; "absolute_import"; "unicode_literals"] >>
  import_std "os" "os" >>
  from_std "warnings" ["warn"] >>
  import_std "subprocess" "subprocess" >>
  import_as "dask.array" "da" >>
  bind_name "install" (Function "install") >>
  import_or_install "wget" "wget" "wget not found.  Will install with pip."
    (ArgName "wget") >>
  import_as "numpy" "np" >>
  import_as "dask" "dask" >>
  from_import "dask.distributed" ["Client"; "LocalCluster"] >>
  import_as "dask.array" "da" >>
  import_as "h5py" "h5py" >>
  import_as "matplotlib.pyplot" "plt" >>
  import_or_install "joblib" "joblib" "joblib not found.  Will install with pip."
    (ArgStr "joblib") >>
  import_std "time" "time" >>
  from_std "functools" ["partial"] >>
  import_or_install "pyUSID" "usid" "pyUSID not found.  Will install with pip."
    (ArgStr "pyUSID") >>
  import_std "sys" "sys" >>
  read "sys" (fun sy => attribute_of "sys" "path" sy >>
                        do (PathAppend "./supporting_docs/")) >>
  from_import "peak_finding" ["find_all_peaks"].

End Cell.

(** The modules the cell imports outside the standard library. *)
Definition required : list string :=
  ["dask.array"; "wget"; "numpy"; "dask"; "dask.distributed"; "h5py";
   "matplotlib.pyplot"; "joblib"; "pyUSID"; "peak_finding"].

(** A kernel that has run nothing, with the modules [found] installed. *)
Definition fresh (found : list string) : kernel :=
  Kernel ∅ (list_to_set found) [].

(** pip installs every package, each providing the module of its name. *)
Definition pip_works (package : string) : list string := [package].

(** Kernels that have run nothing: every module installed but joblib, every
    module but wget (pip is there in both), and the first with [sys] imported
    by hand. *)
Definition without (m : string) : list string :=
  "pip" :: List.remove string_dec m required.
Definition no_joblib : kernel := fresh (without "joblib").
Definition no_wget : kernel := fresh (without "wget").
Definition sys_by_hand : kernel :=
  Kernel {[ "sys" := Module "sys" ]} (list_to_set (without "joblib")) [].


(** When every module but peak_finding is there the cell gets as far as the
    last import. *)
Definition only_peak_finding_missing (k : kernel) : Prop :=
  Forall (λ m, m = "peak_finding" ∨ m ∈ importable k) required ∧
  "peak_finding" ∉ importable k.


(** What a statement guarantees when it completes, from any kernel, and what
    it keeps. *)
Definition post (a : stmt) (Q : kernel -> Prop) : Prop :=
  forall k, (a k).1 = None -> Q (a k).2.

Definition keeps (a : stmt) (Q : kernel -> Prop) : Prop :=
  forall k, Q k -> (a k).1 = None -> Q (a k).2.

Definition found (m : string) : kernel -> Prop := fun k => m ∈ importable k.

Definition bound_to (n : string) (v : binding) : kernel -> Prop :=
  fun k => bound k !! n = Some v.

(** Looking a name up in a namespace after a run of bindings. *)
Definition rebound (l : list (string * binding))
    (m : gmap string binding) : gmap string binding :=
  foldr (fun p m => <[p.1 := p.2]> m) m l.

Fixpoint binding_in (n : string) (l : list (string * binding))
  : option binding :=
  match l with
  | [] => None
  | p :: l => if String.eqb p.1 n then Some p.2 else binding_in n l
  end.

End Imports.


(** ** The pure content of the strategies *)

Section Strategies.

Context {sample : Type}.
Implicit Types (func : row sample -> outcome (list Z)).

Lemma detect_all_Ok func rows ps :
  detect_all func rows = Ok ps ↔ Forall2 (fun r p => func r = Ok p) rows ps.
Proof.
  revert ps. induction rows as [|r rows IH]; intros ps; simpl.
  - split.
    + intros [= <-]. constructor.
    + intros H. by inversion H.
  - destruct (func r) as [p|e] eqn:Hr.
    + destruct (detect_all func rows) as [qs|e] eqn:Hd.
      * split.
        -- intros [= <-]. constructor; [done|]. by apply IH.
        -- intros H. inversion H as [|? q ? qs' Hq Hqs]; subst.
           apply IH in Hqs. congruence.
      * split; [done|]. intros H. inversion H as [|? q ? qs' Hq Hqs]; subst.
        apply IH in Hqs. done.
    + split; [done|]. intros H. inversion H; congruence.
Qed.

Lemma detect_all_Raise func rows e :
  detect_all func rows = Raise e →
  ∃ i r, rows !! i = Some r ∧ func r = Raise e.
Proof.
  induction rows as [|r rows IH]; simpl; [done|].
  destruct (func r) as [p|e'] eqn:Hr.
  - destruct (detect_all func rows) as [qs|e'']; [done|].
    intros [= ->]. destruct IH as (i & r' & Hi & Hf); [done|].
    by exists (S i), r'.
  - intros [= ->]. by exists 0%nat, r.
Qed.

Lemma detect_all_length func rows ps :
  detect_all func rows = Ok ps → length ps = length rows.
Proof. intros H%detect_all_Ok. symmetry. by eapply Forall2_length. Qed.

Lemma detect_all_lookup func rows ps i r :
  detect_all func rows = Ok ps → rows !! i = Some r →
  ∃ p, ps !! i = Some p ∧ func r = Ok p.
Proof.
  intros H%detect_all_Ok Hi.
  destruct (Forall2_lookup_l _ _ _ _ _ H Hi) as (p & ? & ?). eauto.
Qed.

(** *** The partition *)

Lemma elem_of_indexed {A} (l : list A) i x :
  (i, x) ∈ indexed l ↔ l !! i = Some x.
Proof.
  unfold indexed. rewrite elem_of_lookup_imap. split.
  - intros (j & y & [= -> ->] & H). done.
  - intros H. by exists i, x.
Qed.

Lemma elem_of_partition {A} (c : nat) (l : list A) part i x :
  part ∈ partition c l → (i, x) ∈ part → l !! i = Some x.
Proof.
  unfold partition. rewrite list_elem_of_fmap. intros (w & -> & _).
  rewrite list_elem_of_filter. intros [_ H]. by apply elem_of_indexed.
Qed.

Lemma partition_covers {A} (c : nat) (l : list A) i x :
  (1 ≤ c)%nat → l !! i = Some x →
  ∃ part, part ∈ partition c l ∧ (i, x) ∈ part.
Proof.
  intros Hc Hi.
  exists (filter (fun p => (p.1 mod c)%nat = (i mod c)%nat) (indexed l)). split.
  - unfold partition. apply list_elem_of_fmap. exists (i mod c)%nat. split; [done|].
    apply elem_of_seq. split; [lia|]. simpl.
    apply Nat.mod_upper_bound. lia.
  - apply list_elem_of_filter. split; [done|]. by apply elem_of_indexed.
Qed.

(** *** Workers *)

Lemma worker_Ok func part ps :
  worker func part = Ok ps →
  Forall2 (fun p q => q.1 = p.1 ∧ func p.2 = Ok q.2) part ps.
Proof.
  revert ps. induction part as [|[i r] part IH]; intros ps; simpl.
  - intros [= <-]. constructor.
  - destruct (func r) as [p|e] eqn:Hr; [|done].
    destruct (worker func part) as [qs|e]; [|done].
    intros [= <-]. constructor; [done|]. by apply IH.
Qed.

Lemma worker_Raise func part e :
  worker func part = Raise e →
  ∃ i r, (i, r) ∈ part ∧ is_ok (func r) = false ∧ e = DetectionFailed i.
Proof.
  induction part as [|[i r] part IH]; simpl; [done|].
  destruct (func r) as [p|e'] eqn:Hr.
  - destruct (worker func part) as [qs|e'']; [done|].
    intros [= ->]. destruct IH as (j & r' & Hj & Hf & ->); [done|].
    exists j, r'. split; [by right|done].
  - intros [= <-]. exists i, r. split; [by left|]. by rewrite Hr.
Qed.

Lemma worker_total func part :
  Forall (fun p => is_ok (func p.2) = true) part →
  ∃ ps, worker func part = Ok ps.
Proof.
  intros Hall. destruct (worker func part) as [ps|e] eqn:Hw; [by eexists|].
  apply worker_Raise in Hw as (i & r & Hin & Hf & _).
  rewrite Forall_forall in Hall. apply Hall in Hin. simpl in Hin. congruence.
Qed.

Lemma gather_workers_Ok outs g :
  gather_workers outs = Ok g →
  ∃ pss, outs = map Ok pss ∧ g = concat pss.
Proof.
  revert g. induction outs as [|[ps|e] outs IH]; intros g; simpl.
  - intros [= <-]. by exists [].
  - destruct (gather_workers outs) as [qs|e]; [|done].
    intros [= <-]. destruct (IH qs eq_refl) as (pss & -> & ->).
    by exists (ps :: pss).
  - done.
Qed.

Lemma gather_workers_Raise outs e :
  gather_workers outs = Raise e → Raise e ∈ outs.
Proof.
  induction outs as [|[ps|e'] outs IH]; simpl; [done| |].
  - destruct (gather_workers outs) as [qs|e'']; [done|].
    intros [= ->]. right. by apply IH.
  - intros [= ->]. by left.
Qed.

Lemma elem_of_concat {A} (x : A) (ls : list (list A)) :
  x ∈ concat ls ↔ ∃ l, l ∈ ls ∧ x ∈ l.
Proof.
  rewrite list_elem_of_In, in_concat. by setoid_rewrite list_elem_of_In.
Qed.

(** *** Reassembly *)

Lemma result_of_row_Some i (g : list (nat * list Z)) p :
  result_of_row i g = Some p → (i, p) ∈ g.
Proof.
  induction g as [|[j q] g IH]; simpl; [done|].
  destruct (Nat.eqb_spec j i) as [->|Hne].
  - intros [= ->]. by left.
  - intros H. right. by apply IH.
Qed.

Lemma result_of_row_elem i (g : list (nat * list Z)) p :
  (i, p) ∈ g → is_Some (result_of_row i g).
Proof.
  induction g as [|[j q] g IH]; simpl.
  - by intros ?%elem_of_nil.
  - intros [[= -> ->]|H]%elem_of_cons.
    + rewrite Nat.eqb_refl. eauto.
    + destruct (Nat.eqb j i); eauto.
Qed.

Lemma reassemble_Ok (g : list (nat * list Z)) (ps : list (list Z)) (k n : nat) :
  length ps = n →
  (∀ i p, ps !! i = Some p → result_of_row (k + i) g = Some p) →
  reassemble (seq k n) g = Ok ps.
Proof.
  revert ps k. induction n as [|n IH]; intros ps k Hlen Hall.
  - by destruct ps.
  - destruct ps as [|p ps]; [done|]. simpl.
    rewrite <- (Nat.add_0_r k) at 1. rewrite (Hall 0%nat p eq_refl).
    rewrite (IH ps (S k)).
    + done.
    + simpl in Hlen. lia.
    + intros i q Hi. replace (S k + i)%nat with (k + S i)%nat by lia.
      by apply Hall.
Qed.

(** *** The batch *)

(** With at least one worker, the batch returns what the serial pass over
    the rows returns. *)
Lemma parallel_compute_Ok func (data : list (row sample)) (cores : Z) ps :
  1 ≤ cores →
  detect_all func data = Ok ps →
  parallel_compute data func cores = Ok ps.
Proof.
  intros Hc Hd. unfold parallel_compute.
  destruct (gather_workers _) as [g|e] eqn:Hg.
  - apply gather_workers_Ok in Hg as (pss & Hpss & ->).
    apply reassemble_Ok; [by eapply detect_all_length|].
    intros i p Hi. simpl.
    assert (∃ r, data !! i = Some r ∧ func r = Ok p) as (r & Hr & Hf).
    { apply detect_all_Ok in Hd.
      destruct (Forall2_lookup_r _ _ _ _ _ Hd Hi) as (r & ? & ?). eauto. }
    (* what was gathered for a row is the function's result on that row *)
    assert (∀ q, (i, q) ∈ concat pss → q = p) as Huniq.
    { intros q (qs & Hqs & Hq)%elem_of_concat.
      assert (Ok qs ∈ map (worker func) (partition (Z.to_nat cores) data)) as Hin.
      { rewrite Hpss. apply list_elem_of_fmap. eauto. }
      apply list_elem_of_fmap in Hin as (part & Hw & Hpart).
      symmetry in Hw. apply worker_Ok in Hw.
      apply list_elem_of_lookup in Hq as (k & Hk).
      destruct (Forall2_lookup_r _ _ _ _ _ Hw Hk) as ([j r'] & Hj & Hj1 & Hj2).
      simpl in *. subst j.
      assert (data !! i = Some r') as Hr'.
      { eapply elem_of_partition; [done|]. apply list_elem_of_lookup. eauto. }
      congruence. }
    (* and the row was given to some worker *)
    destruct (partition_covers (Z.to_nat cores) data i r) as (part & Hpart & Hin);
      [lia|done|].
    assert (worker func part ∈ map Ok pss) as Hw.
    { rewrite <- Hpss. apply list_elem_of_fmap. eauto. }
    apply list_elem_of_fmap in Hw as (qs & Hw & Hqs).
    apply worker_Ok in Hw.
    apply list_elem_of_lookup in Hin as (k & Hk).
    destruct (Forall2_lookup_l _ _ _ _ _ Hw Hk) as ([j q] & Hq & Hj1 & Hj2).
    simpl in *. subst j.
    assert ((i, q) ∈ concat pss) as Hg.
    { apply elem_of_concat. exists qs. split; [done|].
      apply list_elem_of_lookup. eauto. }
    destruct (result_of_row_elem _ _ _ Hg) as [q' Hq'].
    rewrite Hq'. f_equal. apply Huniq. by apply result_of_row_Some.
  - exfalso.
    apply gather_workers_Raise in Hg.
    apply list_elem_of_fmap in Hg as (part & Hw & Hpart).
    symmetry in Hw. apply worker_Raise in Hw as (i & r & Hin & Hf & _).
    pose proof (elem_of_partition _ _ _ _ _ Hpart Hin) as Hr.
    destruct (detect_all_lookup _ _ _ _ _ Hd Hr) as (p & _ & Hp).
    by rewrite Hp in Hf.
Qed.

(** A row on which the function fails fails the batch, whatever the number
    of workers. *)
Lemma parallel_compute_Raise func (data : list (row sample)) (cores : Z) e :
  1 ≤ cores →
  detect_all func data = Raise e →
  ∃ i, parallel_compute data func cores = Raise (DetectionFailed i).
Proof.
  intros Hc (i & r & Hi & Hf)%detect_all_Raise. unfold parallel_compute.
  destruct (gather_workers _) as [g|e'] eqn:Hg.
  - exfalso. apply gather_workers_Ok in Hg as (pss & Hpss & ->).
    destruct (partition_covers (Z.to_nat cores) data i r) as (part & Hpart & Hin);
      [lia|done|].
    assert (worker func part ∈ map Ok pss) as Hw.
    { rewrite <- Hpss. apply list_elem_of_fmap. eauto. }
    apply list_elem_of_fmap in Hw as (qs & Hw & Hqs).
    apply worker_Ok in Hw.
    apply list_elem_of_lookup in Hin as (k & Hk).
    destruct (Forall2_lookup_l _ _ _ _ _ Hw Hk) as ([j q] & Hq & Hj1 & Hj2).
    simpl in *. congruence.
  - apply gather_workers_Raise in Hg.
    apply list_elem_of_fmap in Hg as (part & Hw & Hpart).
    symmetry in Hw. apply worker_Raise in Hw as (j & _ & _ & _ & ->). eauto.
Qed.

End Strategies.


(** ** Stepping through a cell *)

Ltac py_unfold :=
  unfold cell_dask, cell_plot, cell_parallel, cell_parallel_with, cell_serial,
    cell_test, cell_load, scatter_names, stop_clock, append,
    usid_parallel_compute, client_call, client_close, Client, plt_savefig,
    plot_current, plot, plt_subplots, remove_stale, os_path_exists, os_remove,
    wget_download, h5py_File, time_time, read_all, read_row, get_usid,
    get_time, call_find_all_peaks, set, get, emit, lift, raise in *;
  unfold mbind, mret, Py_bind, Py_ret in *.

Lemma lookup_snoc {A} (l : list A) (x : A) : (l ++ [x]) !! length l = Some x.
Proof. by rewrite lookup_app_r, Nat.sub_diag by lia. Qed.

Lemma insert_snoc {A} (l : list A) (x y : A) :
  <[length l := y]> (l ++ [x]) = l ++ [y].
Proof. rewrite insert_app_r_alt by lia. by rewrite Nat.sub_diag. Qed.

Lemma pred_length_snoc {A} (l : list A) (x : A) :
  Nat.pred (length (l ++ [x])) = length l.
Proof. rewrite length_app. simpl. lia. Qed.

Ltac py_cbn :=
  cbn -[lookup insert delete last h5_path url parallel_compute detect];
  cbn [fst snd ns fs clients figs trace with_ns with_fs with_clients with_figs log].

Ltac py_rew :=
  first [ rewrite lookup_insert_eq | rewrite lookup_insert_ne by done
        | rewrite lookup_snoc | rewrite insert_snoc
        | rewrite last_snoc | rewrite pred_length_snoc ].

Ltac py_simpl := py_cbn; repeat (py_rew; py_cbn).

Ltac py_cbn_in H :=
  cbn -[lookup insert delete last h5_path url parallel_compute detect] in H;
  cbn [fst snd ns fs clients figs trace with_ns with_fs with_clients with_figs log] in H.

Ltac py_rew_in H :=
  first [ rewrite lookup_insert_eq in H | rewrite lookup_insert_ne in H by done
        | rewrite lookup_snoc in H | rewrite insert_snoc in H
        | rewrite last_snoc in H | rewrite pred_length_snoc in H ].

Ltac py_simpl_in H := py_cbn_in H; repeat (py_rew_in H; py_cbn_in H).

(** Case analysis on an innermost stuck scrutinee of the goal. *)
Ltac py_case :=
  match goal with
  | |- context [match ?x with _ => _ end] =>
      lazymatch x with
      | context [match _ with _ => _ end] => fail
      | _ => destruct x eqn:?
      end
  end.

Ltac py_run := py_unfold; py_simpl; repeat (py_case; simplify_eq; py_simpl).

Ltac solve_notin :=
  repeat (apply not_elem_of_cons; split; [done|]); apply not_elem_of_nil.

Ltac solve_in :=
  repeat first [apply list_elem_of_here | apply list_elem_of_further].

Ltac notin_cons H :=
  repeat (apply not_elem_of_cons in H as [? H]).

Ltac map_simpl :=
  repeat (rewrite lookup_insert_eq || (rewrite lookup_insert_ne by done)).

Ltac py_close :=
  try done;
  try (map_simpl; rewrite ?insert_snoc, <- ?app_assoc; simpl; done);
  try (let x := fresh "x" in let Hx := fresh "Hx" in
       intros x Hx; notin_cons Hx; map_simpl; done).

Ltac fresh_name := unfold serial_names, parallel_names; solve_notin.

Ltac no_event :=
  repeat (apply not_elem_of_cons; split; [discriminate|]); apply not_elem_of_nil.

(** ** The cells, one by one *)

Section Cells.

Context {sample : Type}.
Variable W : World sample.
Implicit Types (s : state sample) (d : dataset sample) (rows : list (row sample)).

Local Abbreviation detect := (detect W).

(** *** The serial loop *)

Lemma serial_loop_spec rows s acc o s' :
  ns s !! "serial_results" = Some (VList acc) →
  serial_loop W rows s = (o, s') →
  fs s' = fs s ∧ clients s' = clients s ∧ figs s' = figs s ∧
  (∀ x, x ≠ "vector" → x ≠ "serial_results" → ns s' !! x = ns s !! x) ∧
  match detect_all detect rows with
  | Ok ps =>
      o = Ok tt ∧
      ns s' !! "serial_results" = Some (VList (acc ++ map VIndices ps)) ∧
      trace s' = trace s ++ map EvDetect rows
  | Raise e => o = Raise e
  end.
Proof.
  revert s acc. induction rows as [|vector rows IH]; intros s acc Hacc Hrun.
  - simpl in *. unfold mret, Py_ret in Hrun. simplify_eq.
    rewrite !app_nil_r. done.
  - simpl in Hrun. simpl.
    py_unfold. py_simpl_in Hrun.
    destruct (detect vector) as [p|e] eqn:Hp; py_simpl_in Hrun.
    + rewrite Hacc in Hrun. py_simpl_in Hrun.
      eapply IH in Hrun; [|py_simpl; done].
      destruct Hrun as (Hfs & Hcl & Hfig & Hns & Hres).
      py_simpl_in Hfs. py_simpl_in Hcl. py_simpl_in Hfig. py_simpl_in Hres.
      repeat split; try done.
      * intros x Hx1 Hx2. rewrite Hns by done. py_simpl. done.
      * destruct (detect_all detect rows) as [ps|e]; [|done].
        destruct Hres as (-> & Hsr & Htr). simpl.
        rewrite Hsr, Htr. rewrite <- !app_assoc. done.
    + simplify_eq. py_simpl. repeat split; try done.
      intros x Hx1 Hx2. by rewrite lookup_insert_ne.
Qed.

(** *** The serial cell *)

Lemma cell_serial_spec s :
  let r := cell_serial W s in
  fs r.2 = fs s ∧ clients r.2 = clients s ∧ figs r.2 = figs s ∧
  (∀ x, x ∉ serial_names → ns r.2 !! x = ns s !! x) ∧
  match ns s !! "h5_main" with
  | Some (VUSID d) =>
      match detect_all detect (ds_rows d) with
      | Ok ps =>
          r.1 = Ok tt ∧
          ns r.2 !! "serial_results" = Some (VList (map VIndices ps)) ∧
          ns r.2 !! "core_serial" = Some (VInt 1) ∧
          trace r.2 =
            trace s ++ EvClock :: EvReadAll :: map EvDetect (ds_rows d) ++ [EvClock] ∧
          ns r.2 !! "time_serial" =
            Some (VTime (clock W (trace s ++ EvClock :: EvReadAll
                                    :: map EvDetect (ds_rows d))
                         - clock W (trace s)))
      | Raise e =>
          r.1 = Raise e ∧
          ns r.2 !! "time_serial" = ns s !! "time_serial" ∧
          ns r.2 !! "core_serial" = ns s !! "core_serial"
      end
  | _ =>
      r.1 ≠ Ok tt ∧
      ns r.2 !! "time_serial" = ns s !! "time_serial" ∧
      ns r.2 !! "core_serial" = ns s !! "core_serial"
  end.
Proof.
  unfold serial_names. py_unfold. py_simpl.
  destruct (ns s !! "h5_main") as [v|] eqn:Hmain; py_simpl;
    [destruct v; py_simpl|];
    try (repeat split; try done;
         intros x Hx; notin_cons Hx; by rewrite ?lookup_insert_ne by done).
  match goal with |- context [serial_loop W ?rs ?s0] =>
    destruct (serial_loop W rs s0) as [o s'] eqn:Hloop end.
  eapply (serial_loop_spec _ _ []) in Hloop; [|py_simpl; done].
  destruct Hloop as (Hfs & Hcl & Hfig & Hns & Hres).
  py_simpl_in Hfs. py_simpl_in Hcl. py_simpl_in Hfig. py_simpl_in Hres.
  cbn [ns with_ns log] in Hns. py_simpl.
  destruct (detect_all detect (ds_rows d)) as [ps|e].
  - destruct Hres as (-> & Hsr & Htr). py_simpl.
    rewrite (Hns "start") by done. py_simpl.
    rewrite Htr. py_simpl. rewrite <- !app_assoc. simpl.
    repeat split; try done.
    intros x Hx; notin_cons Hx.
    rewrite !lookup_insert_ne by done. rewrite Hns by done.
    by rewrite !lookup_insert_ne by done.
  - subst o. py_simpl. repeat split; try done.
    + intros x Hx; notin_cons Hx. rewrite Hns by done.
      by rewrite !lookup_insert_ne by done.
    + rewrite Hns by done. by rewrite !lookup_insert_ne by done.
    + rewrite Hns by done. by rewrite !lookup_insert_ne by done.
Qed.

(** *** The parallel_compute cell *)

Lemma cell_parallel_spec (cores : Z) s :
  1 ≤ cores →
  let r := cell_parallel_with W cores s in
  fs r.2 = fs s ∧ clients r.2 = clients s ∧ figs r.2 = figs s ∧
  (∀ x, x ∉ parallel_names → ns r.2 !! x = ns s !! x) ∧
  match ns s !! "h5_main" with
  | Some (VUSID d) =>
      match detect_all detect (ds_rows d) with
      | Ok ps =>
          r.1 = Ok tt ∧
          ns r.2 !! "parallel_results" = Some (VList (map VIndices ps)) ∧
          ns r.2 !! "cores_parallel" = Some (VInt cores) ∧
          trace r.2 = trace s ++ [EvClock; EvReadAll; EvParallel cores; EvClock] ∧
          ns r.2 !! "time_parallel" =
            Some (VTime (clock W (trace s ++ [EvClock; EvReadAll; EvParallel cores])
                         - clock W (trace s)))
      | Raise e =>
          (∃ i, r.1 = Raise (DetectionFailed i)) ∧
          ns r.2 !! "parallel_results" = ns s !! "parallel_results" ∧
          ns r.2 !! "time_parallel" = ns s !! "time_parallel" ∧
          ns r.2 !! "cores_parallel" = ns s !! "cores_parallel"
      end
  | _ =>
      r.1 ≠ Ok tt ∧
      ns r.2 !! "parallel_results" = ns s !! "parallel_results" ∧
      ns r.2 !! "time_parallel" = ns s !! "time_parallel" ∧
      ns r.2 !! "cores_parallel" = ns s !! "cores_parallel"
  end.
Proof.
  intros Hc. unfold parallel_names. py_unfold. py_simpl.
  destruct (ns s !! "h5_main") as [v|] eqn:Hmain; py_simpl;
    [destruct v; py_simpl|];
    try (repeat split; try done;
         intros x Hx; notin_cons Hx; by rewrite ?lookup_insert_ne by done).
  destruct (detect_all detect (ds_rows d)) as [ps|e] eqn:Hd.
  - rewrite (parallel_compute_Ok _ _ _ _ Hc Hd). py_simpl.
    rewrite <- !app_assoc. simpl. repeat split; py_close.
  - destruct (parallel_compute_Raise _ _ _ _ Hc Hd) as [i ->]. py_simpl.
    repeat split; py_close; eauto.
Qed.

(** *** The dask cell *)

(** With [raw_data_list] unbound the cell stops at the call of client.map. *)
Lemma cell_dask_unbound s :
  ns s !! "raw_data_list" = None →
  let r := cell_dask W s in
  fs r.2 = fs s ∧ figs r.2 = figs s ∧
  (∀ x, x ∉ ["start"; "raw_data"; "args"; "kwargs"; "client"] →
        ns r.2 !! x = ns s !! x) ∧
  (∃ e, r.1 = Raise e) ∧
  (∀ d, ns s !! "h5_main" = Some (VUSID d) →
        dask_Client W = None →
        is_ok (dask_scatter W (VArray (ds_rows d))) = true →
        r.1 = Raise (NameError "raw_data_list") ∧
        clients r.2 = clients s ++ [Connected]).
Proof.
  intros Hrdl. py_run; repeat split; py_close; eauto.
  all: intros; simplify_eq; py_simpl; try done.
  match goal with H : dask_scatter _ _ = _, H' : is_ok _ = true |- _ =>
    by rewrite H in H' end.
Qed.

(** A run of the cell that completes. *)
Lemma cell_dask_Ok s :
  let r := cell_dask W s in
  let c := length (clients s) in
  r.1 = Ok tt →
  clients r.2 = clients s ++ [Disconnected] ∧
  trace r.2 =
    trace s ++ EvClock :: EvReadAll ::
      [EvConnect c; EvScatter c; EvMap c; EvGather c; EvNcores c; EvClose c]
      ++ [EvClock] ∧
  ns r.2 !! "time_dask" =
    Some (VTime (clock W (trace s ++ EvClock :: EvReadAll ::
                   [EvConnect c; EvScatter c; EvMap c; EvGather c;
                    EvNcores c; EvClose c])
                 - clock W (trace s))).
Proof.
  py_run; intros; simplify_eq; py_simpl.
  rewrite <- !app_assoc. simpl. repeat split; py_close.
Qed.

(** A run of the cell that raises records no elapsed time. *)
Lemma cell_dask_fail s :
  (cell_dask W s).1 ≠ Ok tt →
  ns (cell_dask W s).2 !! "time_dask" = ns s !! "time_dask".
Proof. py_run; intros; py_close. Qed.

(** The outcome of the parallel_compute cell and of the dask cell depends on
    the kernel only through the names the cell reads. *)
Lemma cell_parallel_reads (cores : Z) s s' :
  ns s' !! "h5_main" = ns s !! "h5_main" →
  (cell_parallel_with W cores s').1 = (cell_parallel_with W cores s).1.
Proof.
  intros Hmain. py_unfold. py_simpl. rewrite Hmain.
  repeat (py_case; simplify_eq; py_simpl); done.
Qed.

Lemma cell_dask_reads s s' :
  ns s' !! "h5_main" = ns s !! "h5_main" →
  ns s' !! "raw_data_list" = ns s !! "raw_data_list" →
  (cell_dask W s').1 = (cell_dask W s).1.
Proof.
  intros Hmain Hrdl. py_unfold. py_simpl. rewrite Hmain.
  destruct (ns s !! "h5_main") as [[]|]; py_simpl; try done.
  destruct (dask_Client W); py_simpl; try done.
  destruct (dask_scatter W _); py_simpl; try done.
  rewrite Hrdl.
  repeat (py_case; simplify_eq; py_simpl); done.
Qed.

(** *** The plot cell *)

(** The cell raises NameError on the first unbound one and writes no file;
    it gets to savefig when all of them are bound. *)
Lemma cell_plot_spec s :
  let r := cell_plot W s in
  (∃ y, y ∈ plot_inputs ∧ ns s !! y = None ∧
        r.1 = Raise (NameError y) ∧ fs r.2 = fs s) ∨
  (Forall (fun y => is_Some (ns s !! y)) plot_inputs ∧
   ∃ name, ns s !! "png_name" = Some name ∧
     (r.1 = Ok tt → is_Some (fs r.2 !! (py_format W name +:+ ".png")))).
Proof.
  unfold plot_inputs. py_run.
  all: try (left; eexists; split; [|split; [eassumption|done]];
            solve_in).
  all: right; (split; [repeat constructor; eauto|]).
  all: eexists; split; [done|]; intros; simplify_eq; py_simpl; eauto.
Qed.

Lemma cell_plot_unbound s x :
  x ∈ plot_inputs → ns s !! x = None →
  let r := cell_plot W s in
  (∃ y, y ∈ plot_inputs ∧ ns s !! y = None ∧ r.1 = Raise (NameError y)) ∧
  fs r.2 = fs s.
Proof.
  intros Hin Hx r. destruct (cell_plot_spec s) as [(y & ? & ? & ? & ?)|[Hall _]].
  - eauto 6.
  - rewrite Forall_forall in Hall. apply Hall in Hin as [v Hv]. congruence.
Qed.

(** *** The load cell *)

Lemma remove_stale_spec s :
  fs s !! h5_path ≠ Some Dir →
  (remove_stale s).1 = Ok tt ∧
  fs (remove_stale s).2 !! h5_path = None ∧
  ns (remove_stale s).2 = ns s.
Proof.
  intros Hdir. py_unfold. py_simpl.
  destruct (fs s !! h5_path) as [[c|]|] eqn:Hold; [|done|].
  - rewrite bool_decide_true by eauto. py_simpl. rewrite Hold. py_simpl.
    by rewrite lookup_delete_eq.
  - rewrite bool_decide_false by (by intros [? ?]). py_simpl. done.
Qed.

(** *** The whole notebook *)

Lemma cell_load_frame s x :
  x ∉ ["url"; "h5_path"; "_"; "h5_file"; "h5_meas_grp"; "h5_main";
       "num_rows"; "num_cols"] →
  ns (cell_load W s).2 !! x = ns s !! x.
Proof.
  intros Hx. notin_cons Hx. unfold cell_load, remove_stale.
  py_run; map_simpl; done.
Qed.

Lemma cell_test_frame s x :
  x ∉ ["row_ind"; "col_ind"; "pixel_ind"; "spectra"; "peak_inds"; "fig"; "axis"] →
  ns (cell_test W s).2 !! x = ns s !! x.
Proof.
  intros Hx. notin_cons Hx. py_run; map_simpl; done.
Qed.

Lemma cell_plot_frame s x :
  x ∉ ["fig"; "axis"] → ns (cell_plot W s).2 !! x = ns s !! x.
Proof.
  intros Hx. notin_cons Hx. py_run; map_simpl; done.
Qed.

(** Whatever the outside world does, a run of the notebook's cells from a
    fresh kernel never binds [raw_data_list] or [png_name]; so the dask cell
    raises without binding its results, its core count or its time, and the
    plot cell raises NameError. *)
Lemma notebook_from_fresh_kernel (files : gmap string (node sample)) :
  let r := run_each (notebook W) (fresh files) in
  ns r.2 !! "raw_data_list" = None ∧
  ns r.2 !! "png_name" = None ∧
  ns r.2 !! "dask_results" = None ∧
  ns r.2 !! "cores_dask" = None ∧
  ns r.2 !! "time_dask" = None ∧
  ∃ o1 o2 o3 o4 e y,
    r.1 = [o1; o2; o3; o4; Raise e; Raise (NameError y)].
Proof.
  unfold notebook, run_each.
  pose proof (cell_load_frame (fresh files)) as Hf1.
  destruct (cell_load W (fresh files)) as [o1 s1].
  pose proof (cell_test_frame s1) as Hf2.
  destruct (cell_test W s1) as [o2 s2].
  pose proof (cell_serial_spec s2) as (_ & _ & _ & Hf3 & _).
  destruct (cell_serial W s2) as [o3 s3].
  pose proof (cell_parallel_spec 3 s3 ltac:(lia)) as (_ & _ & _ & Hf4 & _).
  fold (cell_parallel W) in Hf4.
  destruct (cell_parallel W s3) as [o4 s4].
  cbn [fst snd] in Hf1, Hf2, Hf3, Hf4.
  assert (∀ x, x ∈ ["raw_data_list"; "png_name"; "dask_results"; "cores_dask";
                    "time_dask"] → ns s4 !! x = None) as Hfresh.
  { intros x Hx.
    repeat (apply elem_of_cons in Hx as [->|Hx]);
      [| | | | |by apply elem_of_nil in Hx].
    all: rewrite Hf4, Hf3, Hf2, Hf1 by fresh_name; done. }
  pose proof (cell_dask_unbound s4 (Hfresh "raw_data_list" ltac:(solve_in)))
    as (_ & _ & Hf5 & [e He] & _).
  destruct (cell_dask W s4) as [o5 s5]. cbn [fst snd] in Hf5, He. subst o5.
  assert (∀ x, x ∈ ["raw_data_list"; "png_name"; "dask_results"; "cores_dask";
                    "time_dask"] → ns s5 !! x = None) as Hfresh5.
  { intros x Hx. rewrite Hf5; [by apply Hfresh|].
    repeat (apply elem_of_cons in Hx as [->|Hx]);
      [solve_notin..|by apply elem_of_nil in Hx]. }
  pose proof (cell_plot_frame s5) as Hf6.
  destruct (cell_plot_unbound s5 "png_name") as [(y & _ & _ & Hy) _].
  { unfold plot_inputs. solve_in. }
  { apply Hfresh5. solve_in. }
  destruct (cell_plot W s5) as [o6 s6]. cbn [fst snd] in Hf6, Hy |- *. subst o6.
  repeat split;
    try (rewrite Hf6 by solve_notin; apply Hfresh5; solve_in).
  eauto 10.
Qed.

(** ** The claims *)

(** C8. Before the dataset is loaded, a file left at the cache path
    [temp.h5] is removed: after the clean-up statement nothing is at that
    path, whatever was there, so wget writes the freshly fetched data to
    [temp.h5] itself and h5py opens that data. *)
Theorem stale_cache_removed_before_load s (fetched : content sample) :
  fs s !! h5_path ≠ Some Dir →
  remote W url = Some fetched →
  (remove_stale s).1 = Ok tt ∧
  fs (remove_stale s).2 !! h5_path = None ∧
  fs (cell_load W s).2 !! h5_path = Some (File fetched) ∧
  (∀ root, fetched = H5 root →
     ns (cell_load W s).2 !! "h5_file" = Some (VH5 root)).
Proof.
  intros Hdir Hfetch.
  destruct (remove_stale_spec s Hdir) as (Hok & Hgone & _).
  split; [done|]. split; [done|]. clear Hok Hgone.
  assert (∀ root, fetched = H5 root → H5 root = fetched) as Hsym by done.
  split; [|intros root Hroot; apply Hsym in Hroot].
  all: unfold cell_load.
  all: unfold mbind at 1 2 3, Py_bind; unfold set at 1 2; py_simpl.
  all: match goal with |- context [remove_stale ?s0] =>
         destruct (remove_stale_spec s0 Hdir) as (Hok0 & Hnone & _);
         destruct (remove_stale s0) as [o s1] end.
  all: cbn [fst snd] in Hok0, Hnone; subst o; py_simpl.
  all: py_unfold; py_simpl; rewrite Hfetch.
  all: rewrite bool_decide_false by (rewrite Hnone; by intros [? ?]).
  all: py_simpl.
  - destruct fetched as [root| |]; py_simpl;
      repeat (case_match; simplify_eq; py_simpl); py_close.
  - subst fetched. py_simpl.
    repeat (case_match; simplify_eq; py_simpl); py_close.
Qed.

(** C10. The single-pixel test cell reads [peak_inds[0]] without looking
    at the length of the detector's result: when the chosen pixel exists and
    the detector returns no peak for it, the cell raises IndexError at
    [peak_inds[0]], after the scatter call and before the vertical line,
    the limits and the title are drawn. *)
Theorem test_cell_fails_without_peak s d (num_cols : Z) (spectra : row sample) :
  ns s !! "h5_main" = Some (VUSID d) →
  ns s !! "num_cols" = Some (VInt num_cols) →
  py_index "h5_main[pixel_ind]" (ds_rows d) (25 + 110 * num_cols) = Ok spectra →
  detect spectra = Ok [] →
  let r := cell_test W s in
  r.1 = Raise (IndexError "peak_inds[0]") ∧
  ns r.2 !! "peak_inds" = Some (VIndices []) ∧
  figs r.2 = figs s ++ [[PScatterSpectrum spectra]].
Proof.
  intros Hmain Hcols Hpix Hdet. py_unfold. py_simpl.
  rewrite Hcols. py_simpl. rewrite Hmain. py_simpl. rewrite Hpix. py_simpl.
  rewrite Hdet. py_simpl.
  change (py_index "peak_inds[0]" (@nil Z) 0)
    with (@Raise Z (IndexError "peak_inds[0]")).
  py_simpl. repeat split; py_close.
Qed.

(** C9. In each strategy cell the clock is read before the dataset is read
    into memory and again after the last statement of the strategy, so
    whenever an elapsed time is recorded it spans the read of the whole
    dataset (and, in the dask cell, the creation of the client, the scatter
    and the close of the client) as well as the detection. *)
Theorem elapsed_time_spans_dataset_read s :
  (let r := cell_serial W s in
   r.1 = Ok tt →
   ∃ detection,
     trace r.2 = trace s ++ EvClock :: EvReadAll :: detection ++ [EvClock] ∧
     ns r.2 !! "time_serial" =
       Some (VTime (clock W (trace s ++ EvClock :: EvReadAll :: detection)
                    - clock W (trace s)))) ∧
  (let r := cell_parallel W s in
   r.1 = Ok tt →
   ∃ detection,
     trace r.2 = trace s ++ EvClock :: EvReadAll :: detection ++ [EvClock] ∧
     ns r.2 !! "time_parallel" =
       Some (VTime (clock W (trace s ++ EvClock :: EvReadAll :: detection)
                    - clock W (trace s)))) ∧
  (let r := cell_dask W s in
   let c := length (clients s) in
   r.1 = Ok tt →
   ∃ before after,
     trace r.2 =
       trace s ++ EvClock :: EvReadAll :: EvConnect c :: EvScatter c
         :: before ++ EvClose c :: after ++ [EvClock] ∧
     ns r.2 !! "time_dask" =
       Some (VTime (clock W (trace s ++ EvClock :: EvReadAll :: EvConnect c
                               :: EvScatter c :: before ++ EvClose c :: after)
                    - clock W (trace s)))).
Proof.
  split; [|split].
  - intros r Hok. subst r.
    pose proof (cell_serial_spec s) as (_ & _ & _ & _ & Hspec).
    destruct (ns s !! "h5_main") as [[]|]; try (by destruct Hspec).
    destruct (detect_all _ _) as [ps|e].
    + destruct Hspec as (_ & _ & _ & Htr & Htime). eauto.
    + destruct Hspec as (Hraise & _). congruence.
  - intros r Hok. subst r. unfold cell_parallel in *.
    pose proof (cell_parallel_spec 3 s ltac:(lia)) as (_ & _ & _ & _ & Hspec).
    destruct (ns s !! "h5_main") as [[]|]; try (by destruct Hspec).
    destruct (detect_all _ _) as [ps|e].
    + destruct Hspec as (_ & _ & _ & Htr & Htime).
      exists [EvParallel 3]. done.
    + destruct Hspec as ([i Hraise] & _). congruence.
  - intros r c Hok. subst r c.
    destruct (cell_dask_Ok s Hok) as (_ & Htr & Htime).
    exists [EvMap (length (clients s)); EvGather (length (clients s));
            EvNcores (length (clients s))], [].
    done.
Qed.

(** C6. Running the parallel_compute cell with two worker counts
    [c1 >= 1] and [c2 >= 1] on the same kernel gives the same
    [parallel_results]: both runs complete or both raise, the results they
    bind are identical, and only the reported [cores_parallel] (and the
    elapsed time) depends on the count. *)
Theorem worker_count_does_not_change_results s (c1 c2 : Z) :
  1 ≤ c1 → 1 ≤ c2 →
  let r1 := cell_parallel_with W c1 s in
  let r2 := cell_parallel_with W c2 s in
  is_ok r1.1 = is_ok r2.1 ∧
  ns r1.2 !! "parallel_results" = ns r2.2 !! "parallel_results" ∧
  (r1.1 = Ok tt →
   ns r1.2 !! "cores_parallel" = Some (VInt c1) ∧
   ns r2.2 !! "cores_parallel" = Some (VInt c2) ∧
   ∃ d res,
     ns s !! "h5_main" = Some (VUSID d) ∧
     detect_all detect (ds_rows d) = Ok res ∧
     ns r1.2 !! "parallel_results" = Some (VList (map VIndices res))).
Proof.
  intros H1 H2 r1 r2. subst r1 r2.
  pose proof (cell_parallel_spec c1 s H1) as (_ & _ & _ & _ & Hs1).
  pose proof (cell_parallel_spec c2 s H2) as (_ & _ & _ & _ & Hs2).
  assert (∀ o : outcome unit, o ≠ Ok tt → is_ok o = false) as Hno.
  { intros [[]|]; done. }
  destruct (ns s !! "h5_main") as [v|] eqn:Hmain.
  2: { destruct Hs1 as (Hn1 & Hp1 & _), Hs2 as (Hn2 & Hp2 & _).
       rewrite (Hno _ Hn1), (Hno _ Hn2), Hp1, Hp2. done. }
  destruct v;
    try (destruct Hs1 as (Hn1 & Hp1 & _), Hs2 as (Hn2 & Hp2 & _);
         rewrite (Hno _ Hn1), (Hno _ Hn2), Hp1, Hp2; done).
  destruct (detect_all detect (ds_rows d)) as [ps|e] eqn:Hd.
  - destruct Hs1 as (Ho1 & Hp1 & Hc1 & _), Hs2 as (Ho2 & Hp2 & Hc2 & _).
    rewrite Ho1, Ho2, Hp1, Hp2. repeat split; try done. eauto 6.
  - destruct Hs1 as ([i1 Ho1] & Hp1 & _), Hs2 as ([i2 Ho2] & Hp2 & _).
    rewrite Ho1, Ho2, Hp1, Hp2. done.
Qed.

(** C1. The serial loop and parallel_compute bind the same results, element
    [i] being the detector's output for row [i]; the dask cell does not: it
    reads the name [raw_data_list], which no cell binds, so it raises at
    client.map and [dask_results] is never assigned. *)
Theorem dask_cell_breaks_strategy_agreement s :
  ns s !! "raw_data_list" = None →
  let r1 := cell_serial W s in
  let r2 := cell_parallel W r1.2 in
  let r3 := cell_dask W r2.2 in
  (r1.1 = Ok tt →
   r2.1 = Ok tt ∧
   ∃ d res,
     ns s !! "h5_main" = Some (VUSID d) ∧
     detect_all detect (ds_rows d) = Ok res ∧
     ns r3.2 !! "serial_results" = Some (VList (map VIndices res)) ∧
     ns r3.2 !! "parallel_results" = Some (VList (map VIndices res))) ∧
  (∃ e, r3.1 = Raise e) ∧
  ns r3.2 !! "dask_results" = ns s !! "dask_results".
Proof.
  intros Hrdl r1 r2 r3. subst r1 r2 r3. unfold cell_parallel.
  pose proof (cell_serial_spec s) as (_ & _ & _ & Hf1 & Hs1).
  pose proof (cell_parallel_spec 3 (cell_serial W s).2 ltac:(lia))
    as (_ & _ & _ & Hf2 & Hs2).
  set (s1 := (cell_serial W s).2) in *.
  set (s2 := (cell_parallel_with W 3 s1).2) in *.
  assert (ns s2 !! "raw_data_list" = None) as Hrdl2.
  { unfold s2. rewrite Hf2, Hf1 by fresh_name. done. }
  pose proof (cell_dask_unbound s2 Hrdl2) as (_ & _ & Hf3 & Hraise & _).
  split; [|split; [done|]].
  - intros Hok. rewrite Hf1 in Hs2 by fresh_name.
    destruct (ns s !! "h5_main") as [[]|]; try (by destruct Hs1).
    destruct (detect_all detect (ds_rows d)) as [ps|e] eqn:Hd.
    2: { destruct Hs1 as (Hr & _). congruence. }
    destruct Hs1 as (_ & Hsr & _), Hs2 as (Hok2 & Hpr & _).
    split; [done|]. exists d, ps. repeat split; try done.
    + rewrite Hf3 by solve_notin. unfold s2. rewrite Hf2 by fresh_name. done.
    + rewrite Hf3 by solve_notin. done.
  - rewrite Hf3 by solve_notin. unfold s2. rewrite Hf2, Hf1 by fresh_name. done.
Qed.

(** C5. When the serial loop or parallel_compute completes, its results
    have one element per row of the dataset and, under the detector's
    contract, every index of element [i] lies inside row [i]; the dask cell
    binds no results at all, because it raises at client.map on the unbound
    name [raw_data_list]. *)
Theorem results_cover_rows_except_dask s d :
  ns s !! "h5_main" = Some (VUSID d) →
  ns s !! "raw_data_list" = None →
  detector_contract W →
  (let r := cell_serial W s in
   r.1 = Ok tt →
   ∃ res, ns r.2 !! "serial_results" = Some (VList (map VIndices res)) ∧
          length res = length (ds_rows d) ∧
          Forall2 in_row (ds_rows d) res) ∧
  (let r := cell_parallel W s in
   r.1 = Ok tt →
   ∃ res, ns r.2 !! "parallel_results" = Some (VList (map VIndices res)) ∧
          length res = length (ds_rows d) ∧
          Forall2 in_row (ds_rows d) res) ∧
  (let r := cell_dask W s in
   (∃ e, r.1 = Raise e) ∧ ns r.2 !! "dask_results" = ns s !! "dask_results").
Proof.
  intros Hmain Hrdl Hcontract.
  assert (∀ res, detect_all detect (ds_rows d) = Ok res →
            length res = length (ds_rows d) ∧ Forall2 in_row (ds_rows d) res)
    as Hres.
  { intros res Hd. split; [by eapply detect_all_length|].
    apply detect_all_Ok in Hd. eapply Forall2_impl; [exact Hd|].
    intros r p Hp. eapply Hcontract. exact Hp. }
  split; [|split].
  - intros r Hok. subst r.
    pose proof (cell_serial_spec s) as (_ & _ & _ & _ & Hs). rewrite Hmain in Hs.
    destruct (detect_all detect (ds_rows d)) as [ps|e] eqn:Hd.
    + destruct Hs as (_ & Hsr & _). exists ps. split; [done|]. by apply Hres.
    + destruct Hs as (Hr & _). congruence.
  - intros r Hok. subst r. unfold cell_parallel in *.
    pose proof (cell_parallel_spec 3 s ltac:(lia)) as (_ & _ & _ & _ & Hs).
    rewrite Hmain in Hs.
    destruct (detect_all detect (ds_rows d)) as [ps|e] eqn:Hd.
    + destruct Hs as (_ & Hpr & _). exists ps. split; [done|]. by apply Hres.
    + destruct Hs as ([i Hr] & _). congruence.
  - intros r. subst r.
    pose proof (cell_dask_unbound s Hrdl) as (_ & _ & Hf & Hraise & _).
    split; [done|]. by rewrite Hf by solve_notin.
Qed.

(** C7. On a dataset without rows the serial loop and parallel_compute
    complete with empty results and report their parallelism (1 and 3); the
    dask cell raises on the unbound name [raw_data_list] even then, and
    reports neither results nor a core count. *)
Theorem empty_dataset_runs_except_dask s d :
  ns s !! "h5_main" = Some (VUSID d) →
  ds_rows d = [] →
  ns s !! "raw_data_list" = None →
  (let r := cell_serial W s in
   r.1 = Ok tt ∧
   ns r.2 !! "serial_results" = Some (VList []) ∧
   ns r.2 !! "core_serial" = Some (VInt 1)) ∧
  (let r := cell_parallel W s in
   r.1 = Ok tt ∧
   ns r.2 !! "parallel_results" = Some (VList []) ∧
   ns r.2 !! "cores_parallel" = Some (VInt 3)) ∧
  (let r := cell_dask W s in
   (∃ e, r.1 = Raise e) ∧
   ns r.2 !! "dask_results" = ns s !! "dask_results" ∧
   ns r.2 !! "cores_dask" = ns s !! "cores_dask" ∧
   (dask_Client W = None → is_ok (dask_scatter W (VArray [])) = true →
    r.1 = Raise (NameError "raw_data_list"))).
Proof.
  intros Hmain Hrows Hrdl. split; [|split].
  - intros r. subst r.
    pose proof (cell_serial_spec s) as (_ & _ & _ & _ & Hs).
    rewrite Hmain, Hrows in Hs. simpl in Hs.
    destruct Hs as (? & ? & ? & _). done.
  - intros r. subst r. unfold cell_parallel.
    pose proof (cell_parallel_spec 3 s ltac:(lia)) as (_ & _ & _ & _ & Hs).
    rewrite Hmain, Hrows in Hs. simpl in Hs.
    destruct Hs as (? & ? & ? & _). done.
  - intros r. subst r.
    pose proof (cell_dask_unbound s Hrdl) as (_ & _ & Hf & Hraise & Hname).
    repeat split; try done.
    + by rewrite Hf by solve_notin.
    + by rewrite Hf by solve_notin.
    + intros Hc Hsc. rewrite <- Hrows in Hsc.
      by destruct (Hname d Hmain Hc Hsc).
Qed.

(** C4. The plot cell saves the figure under ['{}.png'.format(png_name)]
    only after reading the three samples.  The dask cell, which raises on
    the unbound name [raw_data_list], leaves [cores_dask] unbound, so the
    plot cell run after it raises NameError and writes no image, whatever
    [png_name] is bound to. *)
Theorem benchmark_plot_is_not_written s :
  ns s !! "raw_data_list" = None →
  ns s !! "cores_dask" = None →
  let s' := (cell_dask W s).2 in
  let r := cell_plot W s' in
  (∃ y, y ∈ plot_inputs ∧ ns s' !! y = None ∧ r.1 = Raise (NameError y)) ∧
  fs r.2 = fs s.
Proof.
  intros Hrdl Hcores s' r. subst s' r.
  pose proof (cell_dask_unbound s Hrdl) as (Hfs & _ & Hf & _ & _).
  destruct (cell_plot_unbound (cell_dask W s).2 "cores_dask") as [Hy Hfs'].
  - unfold plot_inputs. solve_in.
  - by rewrite Hf by solve_notin.
  - split; [done|]. by rewrite Hfs'.
Qed.

(** C2, as the cell has it.  client.close() is an ordinary statement near
    the end of the cell and nothing guards the statements before it.  A run
    that completes leaves its client Disconnected.  When the client can be
    created and a later statement raises before close is reached, close is
    not executed: the client stays Connected and the cell's error is the
    error of that statement.  When close itself raises, its error ends the
    cell: the elapsed time is not recorded, and [dask_results] keeps the
    gathered value. *)
Theorem client_closed_only_when_run_completes s :
  let r := cell_dask W s in
  let c := length (clients s) in
  (r.1 = Ok tt → clients r.2 = clients s ++ [Disconnected]) ∧
  (∀ d, ns s !! "h5_main" = Some (VUSID d) →
        dask_Client W = None → dask_close W = None →
        r.1 ≠ Ok tt →
        clients r.2 = clients s ++ [Connected] ∧
        (∃ evs, trace r.2 = trace s ++ evs ∧ EvClose c ∉ evs) ∧
        ∃ e, r.1 = Raise e ∧
          (e = NameError "raw_data_list" ∨
           dask_scatter W (VArray (ds_rows d)) = Raise e ∨
           (∃ v a k, dask_map W v a k = Raise e) ∨
           (∃ l, dask_gather W l = Raise e) ∨
           dask_ncores W = Raise e)) ∧
  (∀ e, dask_close W = Some e →
        r.1 ≠ Ok tt ∧
        ns r.2 !! "time_dask" = ns s !! "time_dask" ∧
        (last (trace r.2) = Some (EvClose c) →
         r.1 = Raise e ∧
         ∃ l res, dask_gather W l = Ok res ∧
                  ns r.2 !! "dask_results" = Some res)).
Proof.
  intros r c. subst r c. split; [|split].
  - intros Hok. by destruct (cell_dask_Ok s Hok) as (? & _).
  - intros d Hmain Hclient Hclose. py_unfold. py_simpl.
    rewrite Hmain. py_simpl. rewrite Hclient. py_simpl.
    repeat (py_case; simplify_eq; py_simpl); intros Hne; try done.
    all: rewrite <- ?app_assoc; simpl.
    all: split; [done|]; split; [eexists; split; [done|no_event]|].
    all: eexists; split; [done|]; eauto 10.
  - intros e Hclose. py_unfold. py_simpl.
    repeat (py_case; simplify_eq; py_simpl).
    all: repeat split; py_close.
    all: try (intros Hlast; rewrite last_snoc in Hlast; simplify_eq).
    all: try (split; [done|]); eauto.
Qed.

(** C3, as the notebook has it.  No cell catches an exception.  A strategy
    cell that raises stops at the raising statement and records no sample:
    its elapsed-time name (and, for the serial and parallel_compute cells,
    its core-count name) keeps the binding it had, and no sentinel value is
    stored.  A strategy cell run after another one, failed or not, has the
    outcome it has on the kernel before it.  The plot cell, run on a kernel
    in which a name it reads is unbound, raises NameError on it and writes
    no image. *)
Theorem failed_strategy_records_no_sample s :
  (let r := cell_serial W s in
   r.1 ≠ Ok tt →
   ns r.2 !! "time_serial" = ns s !! "time_serial" ∧
   ns r.2 !! "core_serial" = ns s !! "core_serial") ∧
  (let r := cell_parallel W s in
   r.1 ≠ Ok tt →
   ns r.2 !! "time_parallel" = ns s !! "time_parallel" ∧
   ns r.2 !! "cores_parallel" = ns s !! "cores_parallel") ∧
  (let r := cell_dask W s in
   r.1 ≠ Ok tt →
   ns r.2 !! "time_dask" = ns s !! "time_dask") ∧
  (cell_parallel W (cell_serial W s).2).1 = (cell_parallel W s).1 ∧
  (cell_dask W (cell_parallel W (cell_serial W s).2).2).1 = (cell_dask W s).1 ∧
  (let r := cell_plot W s in
   ∀ x, x ∈ plot_inputs → ns s !! x = None →
        (∃ y, y ∈ plot_inputs ∧ ns s !! y = None ∧ r.1 = Raise (NameError y)) ∧
        fs r.2 = fs s).
Proof.
  pose proof (cell_serial_spec s) as (_ & _ & _ & Hf1 & Hs1).
  pose proof (cell_parallel_spec 3 s ltac:(lia)) as (_ & _ & _ & _ & Hs2).
  pose proof (cell_parallel_spec 3 (cell_serial W s).2 ltac:(lia))
    as (_ & _ & _ & Hf2 & _).
  split; [|split; [|split; [|split; [|split]]]].
  - intros r Hne. subst r.
    destruct (ns s !! "h5_main") as [[]|]; try (by destruct Hs1 as (_ & ? & ?)).
    destruct (detect_all _ _); [by destruct Hs1|by destruct Hs1 as (_ & ? & ?)].
  - intros r Hne. subst r. unfold cell_parallel in *.
    destruct (ns s !! "h5_main") as [[]|];
      try (by destruct Hs2 as (_ & _ & ? & ?)).
    destruct (detect_all _ _); [by destruct Hs2|by destruct Hs2 as (_ & _ & ? & ?)].
  - intros r Hne. by apply cell_dask_fail.
  - apply cell_parallel_reads. apply Hf1. fresh_name.
  - apply cell_dask_reads.
    + unfold cell_parallel. rewrite Hf2, Hf1 by fresh_name. done.
    + unfold cell_parallel. rewrite Hf2, Hf1 by fresh_name. done.
  - intros r x Hin Hx. by apply (cell_plot_unbound s x).
Qed.

End Cells.

(** ** The claims on concrete kernels *)

Import Example.

Lemma dask_cell_breaks_strategy_agreement_witness :
  ns (loaded w_peaks) !! "raw_data_list" = None ∧
  (cell_parallel w_peaks (cell_serial w_peaks (loaded w_peaks)).2).1 = Ok tt ∧
  ∃ e, (cell_dask w_peaks
          (cell_parallel w_peaks (cell_serial w_peaks (loaded w_peaks)).2).2).1
       = Raise e.
Proof.
  assert (ns (loaded w_peaks) !! "raw_data_list" = None) as H
    by (vm_compute; reflexivity).
  destruct (dask_cell_breaks_strategy_agreement w_peaks (loaded w_peaks) H)
    as (H1 & H2 & _).
  split; [exact H|]. split; [|exact H2].
  apply H1. vm_compute. reflexivity.
Defined.

(** The spec's scenario, three rows and a detector that answers [4]: the
    serial loop and parallel_compute give [[4], [4], [4]], the dask cell
    raises NameError and leaves its client connected. *)
Lemma three_rows_scenario :
  peaks_by_hand.1 = [Ok tt; Ok tt; Raise (NameError "raw_data_list");
                     Raise (NameError "cores_dask")] ∧
  ns peaks_by_hand.2 !! "serial_results"
    = Some (VList [VIndices [4]; VIndices [4]; VIndices [4]]) ∧
  ns peaks_by_hand.2 !! "parallel_results"
    = Some (VList [VIndices [4]; VIndices [4]; VIndices [4]]) ∧
  ns peaks_by_hand.2 !! "dask_results" = None ∧
  clients peaks_by_hand.2 = [Connected] ∧
  fs peaks_by_hand.2 !! "benchmark.png" = None.
Proof. vm_compute. repeat split; reflexivity. Qed.

Lemma client_closed_only_when_run_completes_witness :
  clients (cell_dask w_peaks (patched w_peaks)).2 = [Disconnected] ∧
  clients (cell_dask w_gather (patched w_gather)).2 = [Connected] ∧
  (cell_dask w_close (patched w_close)).1 = Raise (ExternalError "close").
Proof.
  split; [|split].
  - pose proof (client_closed_only_when_run_completes w_peaks (patched w_peaks))
      as (H & _ & _).
    apply H. vm_compute. reflexivity.
  - pose proof (client_closed_only_when_run_completes w_gather (patched w_gather))
      as (_ & H & _).
    destruct (H three_rows) as (Hc & _).
    + vm_compute. reflexivity.
    + reflexivity.
    + reflexivity.
    + vm_compute. discriminate.
    + exact Hc.
  - pose proof (client_closed_only_when_run_completes w_close (patched w_close))
      as (_ & _ & H).
    destruct (H (ExternalError "close") eq_refl) as (_ & _ & Hc).
    destruct Hc as (Hc & _).
    + vm_compute. reflexivity.
    + exact Hc.
Defined.

(** C2, as the spec states it, fails: the cell raises at client.map (the
    name [raw_data_list] is unbound) or, with that name bound, at a failing
    gather, and in both runs the client is still connected afterwards. *)
Lemma teardown_skipped_when_a_step_fails :
  (cell_dask w_peaks (loaded w_peaks)).1 = Raise (NameError "raw_data_list") ∧
  clients (cell_dask w_peaks (loaded w_peaks)).2 = [Connected] ∧
  (cell_dask w_gather (patched w_gather)).1 = Raise (ExternalError "gather") ∧
  clients (cell_dask w_gather (patched w_gather)).2 = [Connected].
Proof. vm_compute. repeat split; reflexivity. Qed.

Lemma failed_strategy_records_no_sample_witness :
  ns (cell_serial w_broken (loaded w_broken)).2 !! "time_serial" = None ∧
  ns (cell_parallel w_broken (loaded w_broken)).2 !! "time_parallel" = None ∧
  ns (cell_dask w_peaks (loaded w_peaks)).2 !! "time_dask" = None ∧
  fs (cell_plot w_peaks (loaded w_peaks)).2 = fs (loaded w_peaks).
Proof.
  pose proof (failed_strategy_records_no_sample w_broken (loaded w_broken))
    as (H1 & H2 & _).
  pose proof (failed_strategy_records_no_sample w_peaks (loaded w_peaks))
    as (_ & _ & H3 & _ & _ & H4).
  split; [|split; [|split]].
  - destruct H1 as (H1 & _); [vm_compute; discriminate|].
    rewrite H1. vm_compute. reflexivity.
  - destruct H2 as (H2 & _); [vm_compute; discriminate|].
    rewrite H2. vm_compute. reflexivity.
  - rewrite H3; [vm_compute; reflexivity|vm_compute; discriminate].
  - destruct (H4 "png_name") as (_ & H); [|vm_compute; reflexivity|exact H].
    unfold plot_inputs. solve_in.
Defined.

(** C3, as the spec states it, fails: with a detector that raises, the
    serial cell records neither a time nor a sentinel, Run All stops there
    without running the other strategies, and when every cell is run by hand
    the plot cell raises and no image is written. *)
Lemma failed_strategy_is_not_reported :
  broken_by_hand.1 =
    [Raise (ValueError "find_all_peaks"); Raise (DetectionFailed 0);
     Ok tt; Raise (NameError "core_serial")] ∧
  ns broken_by_hand.2 !! "time_serial" = None ∧
  ns broken_by_hand.2 !! "core_serial" = None ∧
  fs broken_by_hand.2 !! "benchmark.png" = None ∧
  broken_run_all.1 = Raise (ValueError "find_all_peaks") ∧
  ns broken_run_all.2 !! "time_serial" = None ∧
  ns broken_run_all.2 !! "time_parallel" = None ∧
  ns broken_run_all.2 !! "time_dask" = None ∧
  fs broken_run_all.2 !! "benchmark.png" = None.
Proof. vm_compute. repeat split; reflexivity. Qed.

Lemma benchmark_plot_is_not_written_witness :
  ns before_dask !! "raw_data_list" = None ∧
  ns before_dask !! "cores_dask" = None ∧
  ns before_dask !! "png_name" = Some (VStr "benchmark") ∧
  fs (cell_plot w_peaks (cell_dask w_peaks before_dask).2).2 = fs before_dask.
Proof.
  assert (ns before_dask !! "raw_data_list" = None) as H1
    by (vm_compute; reflexivity).
  assert (ns before_dask !! "cores_dask" = None) as H2
    by (vm_compute; reflexivity).
  destruct (benchmark_plot_is_not_written w_peaks before_dask H1 H2) as (_ & H).
  split; [exact H1|]. split; [exact H2|]. split; [vm_compute; reflexivity|exact H].
Defined.

Lemma peak_in_middle_contract : detector_contract w_middle.
Proof.
  intros r width_bounds num_steps peaks. simpl. unfold peak_in_middle.
  intros [= <-]. destruct r as [|x r]; [constructor|].
  constructor; [|constructor].
  split.
  - apply Z.div_pos; lia.
  - apply Z.div_lt_upper_bound; simpl length; lia.
Defined.

Lemma results_cover_rows_except_dask_witness :
  ns (loaded w_middle) !! "h5_main" = Some (VUSID three_rows) ∧
  ns (loaded w_middle) !! "raw_data_list" = None ∧
  detector_contract w_middle ∧
  (∃ res,
     ns (cell_serial w_middle (loaded w_middle)).2 !! "serial_results"
       = Some (VList (map VIndices res)) ∧
     length res = length (ds_rows three_rows) ∧
     Forall2 in_row (ds_rows three_rows) res) ∧
  ∃ e, (cell_dask w_middle (loaded w_middle)).1 = Raise e.
Proof.
  assert (ns (loaded w_middle) !! "h5_main" = Some (VUSID three_rows)) as H1
    by (vm_compute; reflexivity).
  assert (ns (loaded w_middle) !! "raw_data_list" = None) as H2
    by (vm_compute; reflexivity).
  destruct (results_cover_rows_except_dask w_middle (loaded w_middle) three_rows
              H1 H2 peak_in_middle_contract) as (Hs & _ & Hd & _).
  split; [exact H1|]. split; [exact H2|]. split; [exact peak_in_middle_contract|].
  split; [|exact Hd].
  apply Hs. vm_compute. reflexivity.
Defined.

Lemma worker_count_does_not_change_results_witness :
  1 ≤ 1 ∧ 1 ≤ 4 ∧
  ns (cell_parallel_with w_peaks 1 (loaded w_peaks)).2 !! "parallel_results" =
  ns (cell_parallel_with w_peaks 4 (loaded w_peaks)).2 !! "parallel_results" ∧
  ns (cell_parallel_with w_peaks 4 (loaded w_peaks)).2 !! "cores_parallel" =
  Some (VInt 4).
Proof.
  assert (1 ≤ 1) as H1 by lia. assert (1 ≤ 4) as H4 by lia.
  destruct (worker_count_does_not_change_results w_peaks (loaded w_peaks) 1 4 H1 H4)
    as (_ & Hres & Hok).
  split; [exact H1|]. split; [exact H4|]. split; [exact Hres|].
  destruct Hok as (_ & Hc & _); [vm_compute; reflexivity|exact Hc].
Defined.

Lemma empty_dataset_runs_except_dask_witness :
  ns (loaded w_empty) !! "h5_main" = Some (VUSID no_rows) ∧
  ds_rows no_rows = [] ∧
  ns (loaded w_empty) !! "raw_data_list" = None ∧
  (cell_serial w_empty (loaded w_empty)).1 = Ok tt ∧
  (cell_parallel w_empty (loaded w_empty)).1 = Ok tt ∧
  (cell_dask w_empty (loaded w_empty)).1 = Raise (NameError "raw_data_list").
Proof.
  assert (ns (loaded w_empty) !! "h5_main" = Some (VUSID no_rows)) as H1
    by (vm_compute; reflexivity).
  assert (ns (loaded w_empty) !! "raw_data_list" = None) as H2
    by (vm_compute; reflexivity).
  destruct (empty_dataset_runs_except_dask w_empty (loaded w_empty) no_rows
              H1 eq_refl H2) as ((Hs & _) & (Hp & _) & (_ & _ & _ & Hd)).
  split; [exact H1|]. split; [reflexivity|]. split; [exact H2|].
  split; [exact Hs|]. split; [exact Hp|].
  apply Hd; reflexivity.
Defined.

Lemma stale_cache_removed_before_load_witness :
  fs stale !! h5_path ≠ Some Dir ∧
  remote w_peaks url = Some (file_of three_rows) ∧
  fs (remove_stale stale).2 !! h5_path = None ∧
  fs (cell_load w_peaks stale).2 !! h5_path = Some (File (file_of three_rows)).
Proof.
  assert (fs stale !! h5_path ≠ Some Dir) as H1 by (vm_compute; discriminate).
  assert (remote w_peaks url = Some (file_of three_rows)) as H2
    by (vm_compute; reflexivity).
  destruct (stale_cache_removed_before_load w_peaks stale (file_of three_rows) H1 H2)
    as (_ & Hgone & Hnew & _).
  split; [exact H1|]. split; [exact H2|]. split; [exact Hgone|exact Hnew].
Defined.

Lemma elapsed_time_spans_dataset_read_witness :
  (∃ detection,
     trace (cell_serial w_peaks (patched w_peaks)).2 =
       trace (patched w_peaks) ++ EvClock :: EvReadAll :: detection ++ [EvClock]) ∧
  (∃ before after,
     trace (cell_dask w_peaks (patched w_peaks)).2 =
       trace (patched w_peaks) ++ EvClock :: EvReadAll :: EvConnect 0 :: EvScatter 0
         :: before ++ EvClose 0 :: after ++ [EvClock]).
Proof.
  destruct (elapsed_time_spans_dataset_read w_peaks (patched w_peaks))
    as (Hs & _ & Hd).
  split.
  - destruct Hs as (detection & Htr & _); [vm_compute; reflexivity|].
    exists detection. exact Htr.
  - destruct Hd as (before & after & Htr & _); [vm_compute; reflexivity|].
    exists before, after. exact Htr.
Defined.

Lemma test_cell_fails_without_peak_witness :
  ns (loaded w_grid) !! "h5_main" = Some (VUSID grid_rows) ∧
  ns (loaded w_grid) !! "num_cols" = Some (VInt 1) ∧
  py_index "h5_main[pixel_ind]" (ds_rows grid_rows) (25 + 110 * 1) = Ok [0; 1; 0] ∧
  detect w_grid [0; 1; 0] = Ok [] ∧
  (cell_test w_grid (loaded w_grid)).1 = Raise (IndexError "peak_inds[0]").
Proof.
  assert (ns (loaded w_grid) !! "h5_main" = Some (VUSID grid_rows)) as H1
    by (vm_compute; reflexivity).
  assert (ns (loaded w_grid) !! "num_cols" = Some (VInt 1)) as H2
    by (vm_compute; reflexivity).
  assert (py_index "h5_main[pixel_ind]" (ds_rows grid_rows) (25 + 110 * 1)
          = Ok [0; 1; 0]) as H3 by (vm_compute; reflexivity).
  assert (detect w_grid [0; 1; 0] = Ok []) as H4 by reflexivity.
  destruct (test_cell_fails_without_peak w_grid (loaded w_grid) grid_rows 1
              [0; 1; 0] H1 H2 H3 H4) as (H & _).
  split; [exact H1|]. split; [exact H2|]. split; [exact H3|]. split; [exact H4|].
  exact H.
Defined.


(** * More of the notebook

    Properties of the cells beyond the statements above: the load cell's
    handling of the cache file, the test cell, failure and re-running of the
    strategy cells, the plot cell when its inputs are there, and the import
    cell. *)

Section Extras.

Context {sample : Type}.
Variable W : World sample.
Implicit Types (s : state sample) (d : dataset sample) (rows : list (row sample)).

Local Abbreviation detect := (detect W).
Local Abbreviation cell_dask_unbound := (cell_dask_unbound W).
Local Abbreviation cell_serial_spec := (cell_serial_spec W).
Local Abbreviation cell_parallel_spec := (cell_parallel_spec W).

(** *** The load cell, beyond the clean-up *)

(** The clean-up statement on a path that is not a directory. *)
Lemma remove_stale_run s o s' :
  remove_stale s = (o, s') → fs s !! h5_path ≠ Some Dir →
  o = Ok tt ∧ fs s' = delete h5_path (fs s) ∧ ns s' = ns s.
Proof.
  py_unfold. py_simpl.
  destruct (fs s !! h5_path) as [[c|]|] eqn:Hold; intros Hrun Hdir; [|done|].
  - rewrite bool_decide_true in Hrun by eauto. py_simpl_in Hrun.
    rewrite Hold in Hrun. simplify_eq. py_simpl. done.
  - rewrite bool_decide_false in Hrun by (by intros [? ?]).
    py_simpl_in Hrun. simplify_eq. split; [done|]. split; [|done].
    symmetry. by apply delete_id.
Qed.

(** What the cell leaves in the working directory. *)
Lemma cell_load_files s :
  let r := cell_load W s in
  match fs s !! h5_path with
  | Some Dir =>
      r.1 = Raise (OSError "IsADirectoryError") ∧
      fs r.2 = fs s ∧ trace r.2 = trace s ∧
      (∀ x, x ≠ "url" → x ≠ "h5_path" → ns r.2 !! x = ns s !! x)
  | _ =>
      match remote W url with
      | None =>
          r.1 = Raise (ExternalError "wget.download") ∧
          fs r.2 = delete h5_path (fs s)
      | Some fetched => fs r.2 = <[h5_path := File fetched]> (fs s)
      end
  end.
Proof.
  intros r. subst r.
  destruct (cell_load W s) as [o s'] eqn:Hload. revert Hload.
  unfold cell_load.
  unfold mbind at 1 2 3, Py_bind. unfold set at 1 2. py_simpl.
  destruct (fs s !! h5_path) as [[c|]|] eqn:Hold.
  2: { unfold remove_stale. py_unfold. py_simpl.
       rewrite Hold. rewrite bool_decide_true by eauto. py_simpl.
       rewrite Hold. py_simpl. intros [= <- <-]. py_simpl.
       repeat split; try done. intros x ? ?. by rewrite !lookup_insert_ne. }
  all: match goal with |- context [remove_stale ?s0] =>
         destruct (remove_stale s0) as [o1 s1] eqn:Hrun;
         apply remove_stale_run in Hrun as (-> & Hfs & _);
           [|py_simpl; rewrite Hold; done] end.
  all: py_simpl_in Hfs.
  all: py_unfold; py_simpl.
  all: destruct (remote W url) as [fetched|]; py_simpl;
         [|by intros [= <- <-]].
  all: rewrite bool_decide_false
         by (rewrite Hfs, lookup_delete_eq; by intros [? ?]).
  all: py_simpl.
  all: repeat (py_case; simplify_eq; py_simpl).
  all: intros [= <- <-]; py_simpl.
  all: rewrite Hfs; apply insert_delete_eq.
Qed.

Ltac py_unfold_goal :=
  unfold cell_dask, cell_plot, cell_parallel, cell_parallel_with, cell_serial,
    cell_test, cell_load, scatter_names, stop_clock, append,
    usid_parallel_compute, client_call, client_close, Client, plt_savefig,
    plot_current, plot, plt_subplots, remove_stale, os_path_exists, os_remove,
    wget_download, h5py_File, time_time, read_all, read_row, get_usid,
    get_time, call_find_all_peaks, set, get, emit, lift, raise;
  unfold mbind, mret, Py_bind, Py_ret.

(** The cell up to and including the download, on a path that is not a
    directory. *)
Ltac load_steps Hdir Hfetch :=
  unfold cell_load;
  unfold mbind at 1 2 3, Py_bind; unfold set at 1 2; py_simpl;
  match goal with |- context [remove_stale ?s0] =>
    let o1 := fresh "o" in let s1 := fresh "s" in
    let Hrun := fresh "Hrun" in
    let Hfs := fresh "Hfs" in let Hns := fresh "Hns" in
    destruct (remove_stale s0) as [o1 s1] eqn:Hrun;
    apply remove_stale_run in Hrun as (-> & Hfs & Hns); [|exact Hdir];
    py_simpl_in Hfs; py_simpl_in Hns;
    py_unfold_goal; py_simpl; rewrite ?Hfetch;
    rewrite ?bool_decide_false
      by (rewrite Hfs, lookup_delete_eq; by intros [? ?]);
    rewrite ?Hns; py_simpl
  end.

(** X1. The load cell changes no file other than [temp.h5]: wget never has to
    make up another name, because the clean-up has freed the path (or has
    raised, on a directory, before anything is fetched). *)
Theorem load_cell_touches_only_cache_path s (path : string) :
  path ≠ h5_path →
  fs (cell_load W s).2 !! path = fs s !! path.
Proof.
  intros Hne. pose proof (cell_load_files s) as Hfiles. cbn zeta in Hfiles.
  destruct (fs s !! h5_path) as [[c|]|];
    try (by destruct Hfiles as (_ & -> & _ & _));
    destruct (remote W url);
    try (destruct Hfiles as (_ & ->); by rewrite lookup_delete_ne);
    rewrite Hfiles; by rewrite lookup_insert_ne.
Qed.

(** X2. When the download fails the cache is lost all the same: the old file
    has been removed before wget is called, the cell raises, and the names
    bound by an earlier run of the cell ([h5_file], [h5_main], ...) keep their
    old bindings. *)
Theorem failed_download_loses_cache s (old : content sample) :
  fs s !! h5_path = Some (File old) →
  remote W url = None →
  let r := cell_load W s in
  r.1 = Raise (ExternalError "wget.download") ∧
  fs r.2 !! h5_path = None ∧
  (∀ x, x ≠ "url" → x ≠ "h5_path" → ns r.2 !! x = ns s !! x).
Proof.
  intros Hold Hfetch r. subst r.
  assert (fs s !! h5_path ≠ Some Dir) as Hdir by (by rewrite Hold).
  destruct (cell_load W s) as [o s'] eqn:Hload. revert Hload.
  load_steps Hdir Hfetch. intros [= <- <-]. py_simpl.
  split; [done|]. split.
  - rewrite Hfs. apply lookup_delete_eq.
  - intros x ? ?. rewrite Hns. by rewrite !lookup_insert_ne.
Qed.

(** X3. When [temp.h5] is a directory the clean-up itself raises: os.remove
    does not delete directories.  Nothing is fetched and no file changes. *)
Theorem load_cell_stops_on_directory s :
  fs s !! h5_path = Some Dir →
  let r := cell_load W s in
  r.1 = Raise (OSError "IsADirectoryError") ∧
  fs r.2 = fs s ∧ trace r.2 = trace s ∧
  ns r.2 !! "h5_main" = ns s !! "h5_main".
Proof.
  intros Hold r. subst r.
  pose proof (cell_load_files s) as Hfiles. cbn zeta in Hfiles.
  rewrite Hold in Hfiles. destruct Hfiles as (? & ? & ? & Hns).
  repeat split; try done. by apply Hns.
Qed.

(** X4. A run of the load cell that completes has bound [h5_main] to the
    dataset found at Measurement_000/Channel_000/Raw_Data of the file just
    fetched (which is now at [temp.h5]), and [num_rows] and [num_cols] to its
    two position dimensions. *)
Theorem load_cell_binds_main_dataset s :
  let r := cell_load W s in
  r.1 = Ok tt →
  ∃ root grp d (num_rows num_cols : Z),
    remote W url = Some (H5 root) ∧
    fs r.2 !! h5_path = Some (File (H5 root)) ∧
    h5_getitem root "Measurement_000" = Ok grp ∧
    h5_getpath grp ["Channel_000"; "Raw_Data"] = Ok (H5Dataset d) ∧
    ds_pos_dim_sizes d = Some [num_rows; num_cols] ∧
    ns r.2 !! "h5_main" = Some (VUSID d) ∧
    ns r.2 !! "num_rows" = Some (VInt num_rows) ∧
    ns r.2 !! "num_cols" = Some (VInt num_cols).
Proof.
  intros r Hok. subst r.
  pose proof (cell_load_files s) as Hfiles. cbn zeta in Hfiles.
  assert (fs s !! h5_path ≠ Some Dir) as Hdir.
  { intros Hd. rewrite Hd in Hfiles. destruct Hfiles as (Hr & _).
    by rewrite Hr in Hok. }
  destruct (remote W url) as [fetched|] eqn:Hfetch.
  2: { destruct (fs s !! h5_path) as [[]|];
         destruct Hfiles as (Hr & _); by rewrite Hr in Hok. }
  clear Hfiles.
  destruct (cell_load W s) as [o s'] eqn:Hload.
  cbn [fst snd] in Hok |- *. subst o. revert Hload.
  load_steps Hdir Hfetch.
  repeat (py_case; simplify_eq; py_simpl); intros [= <-]; py_simpl.
  match goal with H : USIDataset ?raw = Ok ?d |- _ =>
    destruct raw as [|d']; [done|]; simpl in H;
    destruct (ds_pos_dim_sizes d') eqn:?; simplify_eq end.
  eexists _, _, _, _, _. repeat split; try done.
  repeat match goal with H : h5_getitem _ _ = _ |- _ => rewrite H; clear H end.
  done.
Qed.

(** Binding the same names to the same values a second time changes nothing. *)
Ltac same_bindings :=
  apply map_eq; intros ?;
  rewrite !lookup_insert; repeat (case_decide; [done|]); done.

(** X5. Running the load cell again gives what the first run gave: the same
    outcome, the same bindings and the same files (the file fetched by the
    first run is removed and fetched anew). *)
Theorem load_cell_rerun s :
  let r1 := cell_load W s in
  let r2 := cell_load W r1.2 in
  r2.1 = r1.1 ∧ ns r2.2 = ns r1.2 ∧ fs r2.2 = fs r1.2.
Proof.
  intros r1 r2. subst r1 r2.
  destruct (cell_load W s) as [o1 s1] eqn:H1. cbn [fst snd].
  destruct (cell_load W s1) as [o2 s2] eqn:H2. cbn [fst snd].
  revert H1.
  destruct (fs s !! h5_path) as [[old|]|] eqn:Hold.
  2: { (* a directory: both runs stop at os.remove *)
    py_unfold_goal. py_simpl. rewrite Hold.
    rewrite bool_decide_true by eauto. py_simpl. rewrite Hold. py_simpl.
    intros [= <- <-]. revert H2. py_unfold_goal. py_simpl. rewrite Hold.
    rewrite bool_decide_true by eauto. py_simpl. rewrite Hold. py_simpl.
    intros [= <- <-]. py_simpl.
    repeat split. same_bindings. }
  all: assert (fs s !! h5_path ≠ Some Dir) as Hdir by (by rewrite Hold).
  all: destruct (remote W url) as [fetched|] eqn:Hfetch.
  all: load_steps Hdir Hfetch.
  all: repeat (py_case; simplify_eq; py_simpl).
  all: intros [= <- Hs1].
  all: pose proof (f_equal ns Hs1) as Hns1; py_simpl_in Hns1.
  all: pose proof (f_equal fs Hs1) as Hfs1; py_simpl_in Hfs1.
  all: clear Hs1.
  all: assert (fs s1 !! h5_path ≠ Some Dir) as Hdir1
         by (rewrite <- Hfs1, ?Hfs, ?lookup_insert_eq, ?lookup_delete_eq; done).
  all: revert H2; load_steps Hdir1 Hfetch.
  all: repeat (py_case; simplify_eq; py_simpl).
  all: intros [= <- <-]; py_simpl.
  all: split; [done|].
  all: rewrite ?Hns0, ?Hfs0, <- ?Hns1, <- ?Hfs1, ?Hns, ?Hfs.
  all: split; [same_bindings|].
  all: rewrite ?insert_delete_eq, ?insert_insert_eq, ?delete_delete_eq; done.
Qed.

(** *** The single-pixel test cell *)

(** X6. The test cell needs pixel (110, 25) to exist: on a dataset with at
    most [25 + 110 * num_cols] rows it raises IndexError when it reads the
    pixel, before the detector is called and before a figure is created. *)
Theorem test_cell_needs_the_pixel s d (num_cols : Z) :
  ns s !! "h5_main" = Some (VUSID d) →
  ns s !! "num_cols" = Some (VInt num_cols) →
  0 ≤ num_cols →
  Z.of_nat (length (ds_rows d)) ≤ 25 + 110 * num_cols →
  let r := cell_test W s in
  r.1 = Raise (IndexError "h5_main[pixel_ind]") ∧
  trace r.2 = trace s ++ [EvReadRow (25 + 110 * num_cols)] ∧
  figs r.2 = figs s ∧
  ns r.2 !! "spectra" = ns s !! "spectra" ∧
  ns r.2 !! "peak_inds" = ns s !! "peak_inds".
Proof.
  intros Hmain Hcols Hpos Hlen r. subst r.
  py_unfold_goal. py_simpl. rewrite Hcols. py_simpl. rewrite Hmain. py_simpl.
  assert (py_index "h5_main[pixel_ind]" (ds_rows d) (25 + 110 * num_cols)
          = Raise (IndexError "h5_main[pixel_ind]")) as ->.
  { unfold py_index.
    destruct (Z.ltb_spec (25 + 110 * num_cols) 0); [lia|].
    destruct (Z.leb_spec 0 (25 + 110 * num_cols)); [|lia].
    destruct (Z.ltb_spec (25 + 110 * num_cols) (Z.of_nat (length (ds_rows d))));
      [lia|done]. }
  py_simpl. repeat split; py_close.
Qed.

(** X7. When the pixel exists, is not empty and the detector finds peaks, the
    test cell completes: it binds [spectra] and [peak_inds] and draws, on a
    new figure, the spectrum, one vertical line at the first peak only, the
    limits and the title.  No file is written. *)
Theorem test_cell_marks_first_peak s d (num_cols : Z) (spectra : row sample)
    (peak : Z) (others : list Z) :
  ns s !! "h5_main" = Some (VUSID d) →
  ns s !! "num_cols" = Some (VInt num_cols) →
  py_index "h5_main[pixel_ind]" (ds_rows d) (25 + 110 * num_cols) = Ok spectra →
  spectra ≠ [] →
  detect spectra = Ok (peak :: others) →
  let r := cell_test W s in
  r.1 = Ok tt ∧
  ns r.2 !! "spectra" = Some (VVector spectra) ∧
  ns r.2 !! "peak_inds" = Some (VIndices (peak :: others)) ∧
  figs r.2 =
    figs s ++ [[PScatterSpectrum spectra; PAxVLine peak "r";
                PSetYLimSpectrum spectra;
                PSetTitle (VIndices (peak :: others))]] ∧
  fs r.2 = fs s.
Proof.
  intros Hmain Hcols Hpix Hne Hdet r. subst r.
  py_unfold_goal. py_simpl. rewrite Hcols. py_simpl. rewrite Hmain. py_simpl.
  rewrite Hpix. py_simpl. rewrite Hdet. py_simpl.
  change (py_index "peak_inds[0]" (peak :: others) 0) with (@Ok Z peak).
  py_simpl. destruct spectra as [|x spectra]; [done|]. py_simpl.
  repeat split; py_close.
Qed.

(** *** The serial cell, beyond its results *)

Lemma serial_loop_fails rows_done bad rows_left (e : exn) ps :
  detect_all detect rows_done = Ok ps →
  detect bad = Raise e →
  ∀ s acc,
    ns s !! "serial_results" = Some (VList acc) →
    let r := serial_loop W (rows_done ++ bad :: rows_left) s in
    r.1 = Raise e ∧
    ns r.2 !! "serial_results" = Some (VList (acc ++ map VIndices ps)) ∧
    ns r.2 !! "vector" = Some (VVector bad) ∧
    trace r.2 = trace s ++ map EvDetect (rows_done ++ [bad]).
Proof.
  intros Hdone Hbad. revert ps Hdone.
  induction rows_done as [|row rows_done IH]; intros ps Hdone s acc Hacc.
  - simpl in Hdone. simplify_eq. simpl.
    py_unfold_goal. py_simpl. rewrite Hbad. py_simpl.
    rewrite app_nil_r. done.
  - simpl in Hdone.
    destruct (detect row) as [p|] eqn:Hrow; [|done].
    destruct (detect_all detect rows_done) as [qs|] eqn:Hqs; [|done].
    simplify_eq. simpl.
    py_unfold_goal. py_simpl. rewrite Hrow. py_simpl. rewrite Hacc. py_simpl.
    match goal with |- context [serial_loop W _ ?s0] =>
      destruct (IH qs eq_refl s0 (acc ++ [VIndices p])) as (Ho & Hres & Hvec & Htr);
        [py_simpl; done|] end.
    py_simpl_in Htr.
    rewrite Ho, Hres, Hvec, Htr. rewrite <- !app_assoc. done.
Qed.

(** X8. The serial loop is fail-fast and leaves a partial result behind: when
    the detector raises on a row, the cell raises that error, the detector
    is not called on any later row, [serial_results] holds the results of the
    rows before the failing one, [vector] is the failing row, and no time
    is recorded. *)
Theorem serial_cell_stops_at_failing_row s d rows_done bad rows_left e ps :
  ns s !! "h5_main" = Some (VUSID d) →
  ds_rows d = rows_done ++ bad :: rows_left →
  detect_all detect rows_done = Ok ps →
  detect bad = Raise e →
  let r := cell_serial W s in
  r.1 = Raise e ∧
  ns r.2 !! "serial_results" = Some (VList (map VIndices ps)) ∧
  ns r.2 !! "vector" = Some (VVector bad) ∧
  trace r.2 = trace s ++ EvClock :: EvReadAll :: map EvDetect (rows_done ++ [bad]) ∧
  ns r.2 !! "time_serial" = ns s !! "time_serial".
Proof.
  intros Hmain Hrows Hdone Hbad r. subst r.
  py_unfold_goal. py_simpl. rewrite Hmain. py_simpl. rewrite Hrows.
  match goal with |- context [serial_loop W _ ?s0] =>
    destruct (serial_loop_fails rows_done bad rows_left e ps Hdone Hbad s0 [])
      as (Ho & Hres & Hvec & Htr); [py_simpl; done|];
    destruct (serial_loop W (rows_done ++ bad :: rows_left) s0) as [o s'] eqn:Hloop;
    eapply (serial_loop_spec W _ _ []) in Hloop as (_ & _ & _ & Hframe & _);
      [|py_simpl; done]
  end.
  cbn [fst snd] in Ho, Hres, Hvec, Htr. subst o. py_simpl_in Htr. py_simpl.
  rewrite Hres, Hvec, Htr. rewrite <- !app_assoc.
  repeat split; try done.
  rewrite Hframe by done. py_simpl. done.
Qed.

(** X9. Running the serial cell again does not accumulate results: the list
    is rebuilt from empty, so after a second run [serial_results] and
    [core_serial] are what they were after the first. *)
Theorem serial_cell_rerun s :
  let r1 := cell_serial W s in
  let r2 := cell_serial W r1.2 in
  r1.1 = Ok tt →
  r2.1 = Ok tt ∧
  ns r2.2 !! "serial_results" = ns r1.2 !! "serial_results" ∧
  ns r2.2 !! "core_serial" = ns r1.2 !! "core_serial".
Proof.
  intros r1 r2 Hok. subst r1 r2.
  pose proof (cell_serial_spec s) as (_ & _ & _ & Hf & Hs).
  pose proof (cell_serial_spec (cell_serial W s).2) as (_ & _ & _ & _ & Hs').
  rewrite Hf in Hs' by fresh_name.
  destruct (ns s !! "h5_main") as [[]|]; try (by destruct Hs).
  destruct (detect_all detect (ds_rows d)) as [ps|e].
  - destruct Hs as (_ & -> & -> & _), Hs' as (-> & -> & -> & _). done.
  - destruct Hs as (Hr & _). congruence.
Qed.

(** *** The strategy cells and the working directory *)


(** *** The dask cell *)

(** X11. Every run of the dask cell as it is written leaves one more connected
    client: with [raw_data_list] unbound the cell never reaches
    client.close(), and the next run creates a new client without closing
    the old one. *)
Theorem dask_reruns_leak_clients s d (n : nat) :
  ns s !! "h5_main" = Some (VUSID d) →
  ns s !! "raw_data_list" = None →
  dask_Client W = None →
  is_ok (dask_scatter W (VArray (ds_rows d))) = true →
  clients (Nat.iter n (fun k => (cell_dask W k).2) s)
  = clients s ++ replicate n Connected.
Proof.
  intros Hmain Hrdl Hclient Hscatter.
  assert (∀ n, let k := Nat.iter n (fun k => (cell_dask W k).2) s in
               ns k !! "h5_main" = Some (VUSID d) ∧
               ns k !! "raw_data_list" = None ∧
               clients k = clients s ++ replicate n Connected) as Hinv.
  { clear n. induction n as [|n (IH1 & IH2 & IH3)]; simpl.
    - by rewrite app_nil_r.
    - set (k := Nat.iter n _ s) in *.
      pose proof (cell_dask_unbound k IH2) as (_ & _ & Hf & _ & Hc).
      destruct (Hc d IH1 Hclient Hscatter) as (_ & ->).
      rewrite !Hf by solve_notin. rewrite IH3.
      split; [done|]. split; [done|].
      rewrite <- app_assoc. f_equal.
      change (Connected :: replicate n Connected) with (replicate (S n) Connected).
      by rewrite replicate_S_end. }
  apply Hinv.
Qed.

(** X12. On a kernel where [raw_data_list] has been bound by hand and every
    dask call succeeds, the cell completes; what client.map receives is the
    value of [raw_data_list], not the handle returned by client.scatter,
    which is only bound to [raw_data].  The gathered value ends in
    [dask_results] and the client is closed. *)
Theorem dask_cell_maps_raw_data_list s d (given scattered futures gathered cores : value sample) :
  ns s !! "h5_main" = Some (VUSID d) →
  ns s !! "raw_data_list" = Some given →
  dask_Client W = None →
  dask_scatter W (VArray (ds_rows d)) = Ok scattered →
  dask_map W given (VList [VInt 20; VInt 60]) (VKwargs [("num_steps", VInt 30)])
    = Ok futures →
  dask_gather W futures = Ok gathered →
  dask_ncores W = Ok cores →
  dask_close W = None →
  let r := cell_dask W s in
  r.1 = Ok tt ∧
  ns r.2 !! "raw_data" = Some scattered ∧
  ns r.2 !! "L" = Some futures ∧
  ns r.2 !! "dask_results" = Some gathered ∧
  ns r.2 !! "cores_dask" = Some cores ∧
  clients r.2 = clients s ++ [Disconnected].
Proof.
  intros Hmain Hrdl Hclient Hscatter Hmap Hgather Hcores Hclose r. subst r.
  py_unfold_goal. py_simpl. rewrite Hmain. py_simpl. rewrite Hclient. py_simpl.
  rewrite Hscatter. py_simpl. rewrite Hrdl. py_simpl. rewrite Hmap. py_simpl.
  rewrite Hgather. py_simpl. rewrite Hcores. py_simpl. rewrite Hclose. py_simpl.
  repeat split; py_close.
Qed.

(** *** The plot cell *)


End Extras.

Import Scenario.

(** *** The properties above on concrete kernels *)

Lemma load_cell_touches_only_cache_path_witness :
  "notes.txt" ≠ h5_path ∧
  fs (cell_load w_peaks with_notes).2 !! "notes.txt" = fs with_notes !! "notes.txt".
Proof.
  assert ("notes.txt" ≠ h5_path) as H1 by (vm_compute; discriminate).
  split; [exact H1|].
  exact (load_cell_touches_only_cache_path w_peaks with_notes "notes.txt" H1).
Defined.

Lemma failed_download_loses_cache_witness :
  fs stale !! h5_path = Some (File (Blob "old")) ∧
  remote offline url = None ∧
  (cell_load offline stale).1 = Raise (ExternalError "wget.download") ∧
  fs (cell_load offline stale).2 !! h5_path = None.
Proof.
  assert (fs stale !! h5_path = Some (File (Blob "old"))) as H1
    by (vm_compute; reflexivity).
  assert (remote offline url = None) as H2 by reflexivity.
  destruct (failed_download_loses_cache offline stale (Blob "old") H1 H2)
    as (Hfail & Hgone & _).
  split; [exact H1|]. split; [exact H2|]. split; [exact Hfail|exact Hgone].
Defined.

Lemma load_cell_stops_on_directory_witness :
  fs blocked !! h5_path = Some Dir ∧
  (cell_load w_peaks blocked).1 = Raise (OSError "IsADirectoryError") ∧
  fs (cell_load w_peaks blocked).2 = fs blocked.
Proof.
  assert (fs blocked !! h5_path = Some Dir) as H1 by (vm_compute; reflexivity).
  destruct (load_cell_stops_on_directory w_peaks blocked H1) as (Hfail & Hfs & _).
  split; [exact H1|]. split; [exact Hfail|exact Hfs].
Defined.

Lemma load_cell_binds_main_dataset_witness :
  (cell_load w_peaks (fresh ∅)).1 = Ok tt ∧
  ∃ root grp d (num_rows num_cols : Z),
    remote w_peaks url = Some (H5 root) ∧
    fs (cell_load w_peaks (fresh ∅)).2 !! h5_path = Some (File (H5 root)) ∧
    h5_getitem root "Measurement_000" = Ok grp ∧
    h5_getpath grp ["Channel_000"; "Raw_Data"] = Ok (H5Dataset d) ∧
    ds_pos_dim_sizes d = Some [num_rows; num_cols] ∧
    ns (cell_load w_peaks (fresh ∅)).2 !! "h5_main" = Some (VUSID d) ∧
    ns (cell_load w_peaks (fresh ∅)).2 !! "num_rows" = Some (VInt num_rows) ∧
    ns (cell_load w_peaks (fresh ∅)).2 !! "num_cols" = Some (VInt num_cols).
Proof.
  assert ((cell_load w_peaks (fresh ∅)).1 = Ok tt) as H1
    by (vm_compute; reflexivity).
  split; [exact H1|].
  exact (load_cell_binds_main_dataset w_peaks (fresh ∅) H1).
Defined.

Lemma test_cell_needs_the_pixel_witness :
  ns (loaded w_peaks) !! "h5_main" = Some (VUSID three_rows) ∧
  ns (loaded w_peaks) !! "num_cols" = Some (VInt 1) ∧
  0 ≤ 1 ∧
  Z.of_nat (length (ds_rows three_rows)) ≤ 25 + 110 * 1 ∧
  (cell_test w_peaks (loaded w_peaks)).1 = Raise (IndexError "h5_main[pixel_ind]").
Proof.
  assert (ns (loaded w_peaks) !! "h5_main" = Some (VUSID three_rows)) as H1
    by (vm_compute; reflexivity).
  assert (ns (loaded w_peaks) !! "num_cols" = Some (VInt 1)) as H2
    by (vm_compute; reflexivity).
  assert (0 ≤ 1) as H3 by lia.
  assert (Z.of_nat (length (ds_rows three_rows)) ≤ 25 + 110 * 1) as H4
    by (vm_compute; discriminate).
  destruct (test_cell_needs_the_pixel w_peaks (loaded w_peaks) three_rows 1
              H1 H2 H3 H4) as (H & _).
  split; [exact H1|]. split; [exact H2|]. split; [exact H3|]. split; [exact H4|].
  exact H.
Defined.

Lemma test_cell_marks_first_peak_witness :
  ns (loaded w_grid_peak) !! "h5_main" = Some (VUSID grid_rows) ∧
  ns (loaded w_grid_peak) !! "num_cols" = Some (VInt 1) ∧
  py_index "h5_main[pixel_ind]" (ds_rows grid_rows) (25 + 110 * 1) = Ok [0; 1; 0] ∧
  [0; 1; 0] ≠ [] ∧
  detect w_grid_peak [0; 1; 0] = Ok [1] ∧
  (cell_test w_grid_peak (loaded w_grid_peak)).1 = Ok tt ∧
  figs (cell_test w_grid_peak (loaded w_grid_peak)).2 =
    figs (loaded w_grid_peak) ++
      [[PScatterSpectrum [0; 1; 0]; PAxVLine 1 "r"; PSetYLimSpectrum [0; 1; 0];
        PSetTitle (VIndices [1])]].
Proof.
  assert (ns (loaded w_grid_peak) !! "h5_main" = Some (VUSID grid_rows)) as H1
    by (vm_compute; reflexivity).
  assert (ns (loaded w_grid_peak) !! "num_cols" = Some (VInt 1)) as H2
    by (vm_compute; reflexivity).
  assert (py_index "h5_main[pixel_ind]" (ds_rows grid_rows) (25 + 110 * 1)
          = Ok [0; 1; 0]) as H3 by (vm_compute; reflexivity).
  assert ([0; 1; 0] ≠ @nil Z) as H4 by discriminate.
  assert (detect w_grid_peak [0; 1; 0] = Ok [1]) as H5 by reflexivity.
  destruct (test_cell_marks_first_peak w_grid_peak (loaded w_grid_peak) grid_rows 1
              [0; 1; 0] 1 [] H1 H2 H3 H4 H5) as (Hok & _ & _ & Hfig & _).
  split; [exact H1|]. split; [exact H2|]. split; [exact H3|]. split; [exact H4|].
  split; [exact H5|]. split; [exact Hok|exact Hfig].
Defined.

Lemma serial_cell_stops_at_failing_row_witness :
  ns (loaded w_flat) !! "h5_main" = Some (VUSID flat_second) ∧
  ds_rows flat_second = [[0; 1; 0]] ++ [0; 0; 0] :: [[0; 2; 0]] ∧
  detect_all (detect w_flat) [[0; 1; 0]] = Ok [[1]] ∧
  detect w_flat [0; 0; 0] = Raise (ValueError "find_all_peaks") ∧
  (cell_serial w_flat (loaded w_flat)).1 = Raise (ValueError "find_all_peaks") ∧
  ns (cell_serial w_flat (loaded w_flat)).2 !! "serial_results" =
    Some (VList (map VIndices [[1]])).
Proof.
  assert (ns (loaded w_flat) !! "h5_main" = Some (VUSID flat_second)) as H1
    by (vm_compute; reflexivity).
  assert (ds_rows flat_second = [[0; 1; 0]] ++ [0; 0; 0] :: [[0; 2; 0]]) as H2
    by reflexivity.
  assert (detect_all (detect w_flat) [[0; 1; 0]] = Ok [[1]]) as H3
    by (vm_compute; reflexivity).
  assert (detect w_flat [0; 0; 0] = Raise (ValueError "find_all_peaks")) as H4
    by (vm_compute; reflexivity).
  destruct (serial_cell_stops_at_failing_row w_flat (loaded w_flat) flat_second
              [[0; 1; 0]] [0; 0; 0] [[0; 2; 0]] (ValueError "find_all_peaks")
              [[1]] H1 H2 H3 H4) as (Hfail & Hpart & _).
  split; [exact H1|]. split; [exact H2|]. split; [exact H3|]. split; [exact H4|].
  split; [exact Hfail|exact Hpart].
Defined.

Lemma serial_cell_rerun_witness :
  (cell_serial w_peaks (loaded w_peaks)).1 = Ok tt ∧
  (cell_serial w_peaks (cell_serial w_peaks (loaded w_peaks)).2).1 = Ok tt.
Proof.
  assert ((cell_serial w_peaks (loaded w_peaks)).1 = Ok tt) as H1
    by (vm_compute; reflexivity).
  destruct (serial_cell_rerun w_peaks (loaded w_peaks) H1) as (H & _).
  split; [exact H1|exact H].
Defined.

Lemma dask_reruns_leak_clients_witness :
  ns (loaded w_peaks) !! "h5_main" = Some (VUSID three_rows) ∧
  ns (loaded w_peaks) !! "raw_data_list" = None ∧
  dask_Client w_peaks = None ∧
  is_ok (dask_scatter w_peaks (VArray (ds_rows three_rows))) = true ∧
  clients (Nat.iter 3 (fun k => (cell_dask w_peaks k).2) (loaded w_peaks)) =
    clients (loaded w_peaks) ++ replicate 3 Connected.
Proof.
  assert (ns (loaded w_peaks) !! "h5_main" = Some (VUSID three_rows)) as H1
    by (vm_compute; reflexivity).
  assert (ns (loaded w_peaks) !! "raw_data_list" = None) as H2
    by (vm_compute; reflexivity).
  assert (dask_Client w_peaks = None) as H3 by reflexivity.
  assert (is_ok (dask_scatter w_peaks (VArray (ds_rows three_rows))) = true) as H4
    by reflexivity.
  split; [exact H1|]. split; [exact H2|]. split; [exact H3|]. split; [exact H4|].
  exact (dask_reruns_leak_clients w_peaks (loaded w_peaks) three_rows 3 H1 H2 H3 H4).
Defined.

Lemma dask_cell_maps_raw_data_list_witness :
  ns (patched w_peaks) !! "h5_main" = Some (VUSID three_rows) ∧
  ns (patched w_peaks) !! "raw_data_list" = Some (VList []) ∧
  dask_Client w_peaks = None ∧
  dask_scatter w_peaks (VArray (ds_rows three_rows)) = Ok (VRemote 0) ∧
  dask_map w_peaks (VList []) (VList [VInt 20; VInt 60])
    (VKwargs [("num_steps", VInt 30)]) = Ok (VRemote 1) ∧
  dask_gather w_peaks (VRemote 1) = Ok (VRemote 2) ∧
  dask_ncores w_peaks = Ok (VInt 4) ∧
  dask_close w_peaks = None ∧
  (cell_dask w_peaks (patched w_peaks)).1 = Ok tt ∧
  ns (cell_dask w_peaks (patched w_peaks)).2 !! "dask_results" = Some (VRemote 2).
Proof.
  assert (ns (patched w_peaks) !! "h5_main" = Some (VUSID three_rows)) as H1
    by (vm_compute; reflexivity).
  assert (ns (patched w_peaks) !! "raw_data_list" = Some (VList [])) as H2
    by (vm_compute; reflexivity).
  assert (dask_Client w_peaks = None) as H3 by reflexivity.
  assert (dask_scatter w_peaks (VArray (ds_rows three_rows)) = Ok (VRemote 0))
    as H4 by reflexivity.
  assert (dask_map w_peaks (VList []) (VList [VInt 20; VInt 60])
            (VKwargs [("num_steps", VInt 30)]) = Ok (VRemote 1)) as H5
    by reflexivity.
  assert (dask_gather w_peaks (VRemote 1) = Ok (VRemote 2)) as H6 by reflexivity.
  assert (dask_ncores w_peaks = Ok (VInt 4)) as H7 by reflexivity.
  assert (dask_close w_peaks = None) as H8 by reflexivity.
  destruct (dask_cell_maps_raw_data_list w_peaks (patched w_peaks) three_rows
              (VList []) (VRemote 0) (VRemote 1) (VRemote 2) (VInt 4)
              H1 H2 H3 H4 H5 H6 H7 H8) as (Hok & _ & _ & Hres & _).
  split; [exact H1|]. split; [exact H2|]. split; [exact H3|]. split; [exact H4|].
  split; [exact H5|]. split; [exact H6|]. split; [exact H7|]. split; [exact H8|].
  split; [exact Hok|exact Hres].
Defined.



(** *** The import cell *)

Section ImportSteps.
Import Imports.
Variable pip_installs : string -> list string.
Implicit Types (k : kernel) (a b : stmt).

Lemma then_run a b k :
  (a >> b) k = match a k with
               | (None, k') => b k'
               | (Some f, k') => (Some f, k')
               end.
Proof. reflexivity. Qed.

Lemma bind_name_run n v k :
  bind_name n v k = (None, Kernel (<[n := v]> (bound k)) (importable k) (effects k)).
Proof. reflexivity. Qed.

Lemma do_run e k :
  do e k = (None, Kernel (bound k) (importable k) (effects k ++ [e])).
Proof. reflexivity. Qed.

Lemma skip_run k : skip k = (None, k).
Proof. reflexivity. Qed.

Lemma throw_run f k : throw f k = (Some f, k).
Proof. reflexivity. Qed.

Lemma read_run n body k :
  read n body k = match bound k !! n with
                  | Some v => body v k
                  | None => (Some (Python (NameError n)), k)
                  end.
Proof. reflexivity. Qed.

Lemma import_std_run m n k : import_std m n k = bind_name n (Module m) k.
Proof. reflexivity. Qed.

Lemma import_as_run m n k :
  import_as m n k = if bool_decide (m ∈ importable k)
                    then bind_name n (Module m) k
                    else (Some (ImportError m), k).
Proof. reflexivity. Qed.

Lemma bind_members_nil_run m k : bind_members m [] k = (None, k).
Proof. reflexivity. Qed.

Lemma bind_members_cons_run m n names k :
  bind_members m (n :: names) k =
  bind_members m names
    (Kernel (<[n := Member m n]> (bound k)) (importable k) (effects k)).
Proof. reflexivity. Qed.

Lemma from_std_run m names k : from_std m names k = bind_members m names k.
Proof. reflexivity. Qed.

Lemma from_import_run m names k :
  from_import m names k = if bool_decide (m ∈ importable k)
                          then bind_members m names k
                          else (Some (ImportError m), k).
Proof. reflexivity. Qed.

Lemma warn_run msg k :
  warn msg k = read "warn" (fun _ => do (Warn msg)) k.
Proof. reflexivity. Qed.

Lemma install_run p k :
  install pip_installs p k =
  read "install" (fun _ => eval p (install_body pip_installs)) k.
Proof. reflexivity. Qed.

Lemma eval_name_run n body k : eval (ArgName n) body k = read n body k.
Proof. reflexivity. Qed.

Lemma eval_str_run s body k : eval (ArgStr s) body k = body (Str s) k.
Proof. reflexivity. Qed.

Lemma install_body_run v k :
  install_body pip_installs v k =
  read "subprocess" (fun sp => attribute_of "subprocess" "call" sp >>
  read "sys" (fun sy => attribute_of "sys" "executable" sy >>
  match v with
  | Str p => fun k =>
      (None, Kernel (bound k) (list_to_set (pip_installs p) ∪ importable k)
               (effects k ++ [Pip p]))
  | _ => throw (Python (TypeError "expected str"))
  end)) k.
Proof. reflexivity. Qed.

Lemma import_or_install_run m n msg p k :
  import_or_install pip_installs m n msg p k =
  if bool_decide (m ∈ importable k) then bind_name n (Module m) k
  else (warn msg >> import_as "pip" "pip" >> install pip_installs p >>
        import_as m n) k.
Proof. reflexivity. Qed.

End ImportSteps.

Lemma lookup_rebound l m n :
  Imports.rebound l m !! n =
  match Imports.binding_in n l with Some v => Some v | None => m !! n end.
Proof.
  induction l as [|[n' v] l IH]; simpl; [done|].
  destruct (String.eqb_spec n' n) as [->|?].
  - by rewrite lookup_insert_eq.
  - by rewrite lookup_insert_ne.
Qed.

Ltac bindings_of m :=
  lazymatch m with
  | <[?n := ?v]> ?m' =>
      let r := bindings_of m' in
      lazymatch r with (?l, ?b) => constr:(((n, v) :: l, b)) end
  | _ => constr:((@nil (string * Imports.binding), m))
  end.

Ltac imp_lookup :=
  match goal with
  | |- context [ @lookup _ _ _ _ ?n (<[?n' := ?v']> ?m') ] =>
      let r := bindings_of (<[n' := v']> m') in
      lazymatch r with
      | (?l, ?b) =>
          let found := eval vm_compute in (Imports.binding_in n l) in
          let H := fresh in
          lazymatch found with
          | Some ?v =>
              assert (H : <[n' := v']> m' !! n = Some v)
                by exact (lookup_rebound l b n)
          | None =>
              assert (H : <[n' := v']> m' !! n = b !! n)
                by exact (lookup_rebound l b n)
          end;
          rewrite H; clear H
      end
  end.

Ltac imp_in :=
  first [ done
        | apply elem_of_union_l, elem_of_list_to_set; done
        | apply elem_of_union_r; imp_in ].

Ltac imp_rew :=
  first
    [ rewrite bool_decide_true by imp_in
    | rewrite bool_decide_false by done
    | case_bool_decide
    | imp_lookup
    | rewrite then_run | rewrite bind_name_run | rewrite do_run
    | rewrite skip_run | rewrite throw_run | rewrite read_run
    | rewrite import_std_run | rewrite import_as_run
    | rewrite bind_members_nil_run | rewrite bind_members_cons_run
    | rewrite from_std_run | rewrite from_import_run | rewrite warn_run
    | rewrite install_run | rewrite eval_name_run | rewrite eval_str_run
    | rewrite install_body_run | rewrite import_or_install_run ].

Ltac imp_cbn :=
  cbn [Imports.bound Imports.importable Imports.effects Imports.attribute_of
       fst snd].

(** Run the statements, deciding each [import] either way. *)
Ltac imp_simpl := imp_cbn; repeat (imp_rew; imp_cbn).

(** The end of a run. *)
Ltac imp_end :=
  let H := fresh in intros H; apply pair_equal_spec in H as [<- <-]; imp_cbn.

Section ImportCell.
Import Imports.
Variable pip_installs : string -> list string.
Implicit Types k : kernel.

Lemma in_effects_snoc (e e' : effect) (l : list effect) :
  e ∈ l ++ [e'] → e ≠ e' → e ∈ l.
Proof.
  intros [?|Hin]%elem_of_app ?; [done|].
  apply list_elem_of_singleton in Hin. done.
Qed.

Lemma cell_import_before_sys k :
  bound k !! "sys" = None →
  (∀ p, bound k !! "wget" ≠ Some (Str p)) →
  let r := cell_import pip_installs k in
  importable r.2 = importable k ∧
  (∀ p, Pip p ∈ effects r.2 → Pip p ∈ effects k) ∧
  (r.1 = None ↔ Forall (λ m, m ∈ importable k) required) ∧
  (r.1 ≠ None →
   (bound r.2 !! "sys" = None ∧ ∀ p, bound r.2 !! "wget" ≠ Some (Str p)) ∨
   only_peak_finding_missing k).
Proof.
  intros Hsys Hwget r. subst r.
  assert (Hreq : Forall (λ m, m ∈ importable k) required ↔
    "dask.array" ∈ importable k ∧ "wget" ∈ importable k ∧
    "numpy" ∈ importable k ∧ "dask" ∈ importable k ∧
    "dask.distributed" ∈ importable k ∧ "h5py" ∈ importable k ∧
    "matplotlib.pyplot" ∈ importable k ∧ "joblib" ∈ importable k ∧
    "pyUSID" ∈ importable k ∧ "peak_finding" ∈ importable k).
  { unfold required. rewrite !Forall_cons, Forall_nil. tauto. }
  rewrite Hreq. clear Hreq.
  unfold only_peak_finding_missing, required.
  rewrite !Forall_cons, Forall_nil.
  destruct (cell_import pip_installs k) as [o k'] eqn:Hrun. revert Hrun.
  unfold cell_import.
  imp_simpl.
  all: rewrite ?Hsys; imp_simpl.
  all: try match goal with
    | _ : bound ?k0 !! "sys" = None |- context [bound ?k0 !! "wget"] =>
    destruct (bound k0 !! "wget") as [[]|] eqn:Hw; imp_simpl;
    try (by destruct (Hwget _ eq_refl)); rewrite ?Hsys; imp_simpl end.
  all: imp_end.
  all: split; [done|].
  all: split;
    [intros p Hin; repeat (apply in_effects_snoc in Hin; [|done]); done|].
  all: split; [split; [done|tauto]|].
  all: intros Hfail; try done.
  all: first
    [ right; split; [tauto|done]
    | left; split; [by imp_lookup|];
      intros p; imp_lookup; first [done | rewrite Hw; done] ].
Qed.

Lemma cell_import_without_peak_finding k :
  only_peak_finding_missing k →
  let r := cell_import pip_installs k in
  r.1 = Some (ImportError "peak_finding") ∧
  importable r.2 = importable k ∧
  only_peak_finding_missing r.2.
Proof.
  intros Hmissing r. subst r.
  assert (Hgoal : ∀ o k', o = Some (ImportError "peak_finding") →
            importable k' = importable k →
            o = Some (ImportError "peak_finding") ∧
            importable k' = importable k ∧ only_peak_finding_missing k').
  { intros o k' -> Hk'. unfold only_peak_finding_missing.
    rewrite Hk'. done. }
  destruct Hmissing as [Hreq Hpeak].
  unfold required in Hreq. rewrite !Forall_cons, Forall_nil in Hreq.
  destruct Hreq as
    ([|?] & [|?] & [|?] & [|?] & [|?] & [|?] & [|?] & [|?] & [|?] & _);
    try done.
  destruct (cell_import pip_installs k) as [o k'] eqn:Hrun. revert Hrun.
  unfold cell_import.
  imp_simpl.
  intros Hrun. apply pair_equal_spec in Hrun as [<- <-]. by apply Hgoal.
Qed.

(** X14. Until [sys] is bound the cell installs nothing: on a kernel in which
    [sys] is unbound and [wget] is not a string, a run leaves the set of
    importable modules as it was and runs no pip command, and it completes
    exactly when every third-party module it imports is already there. *)
Theorem import_cell_installs_nothing_before_sys k :
  bound k !! "sys" = None →
  (∀ p, bound k !! "wget" ≠ Some (Str p)) →
  let r := cell_import pip_installs k in
  importable r.2 = importable k ∧
  (∀ p, Pip p ∈ effects r.2 → Pip p ∈ effects k) ∧
  (r.1 = None ↔ Forall (λ m, m ∈ importable k) required).
Proof.
  intros Hsys Hwget r.
  destruct (cell_import_before_sys k Hsys Hwget) as (? & ? & ? & _). done.
Qed.

(** X15. Running the cell again does not help: on a kernel in which [sys] is
    unbound and [wget] is not a string, a run that failed is followed by
    failing runs only, however often the cell is run again, and the set of
    importable modules never changes. *)
Theorem failed_import_cell_fails_again k (n : nat) :
  bound k !! "sys" = None →
  (∀ p, bound k !! "wget" ≠ Some (Str p)) →
  (cell_import pip_installs k).1 ≠ None →
  let again := Nat.iter n (λ k', (cell_import pip_installs k').2) k in
  (cell_import pip_installs again).1 ≠ None ∧
  importable again = importable k.
Proof.
  intros Hsys Hwget Hfail again. subst again.
  assert (Hinv : ∀ k',
    let again := Nat.iter n (λ k', (cell_import pip_installs k').2) k' in
    (bound k' !! "sys" = None ∧ (∀ p, bound k' !! "wget" ≠ Some (Str p)) ∧
     ¬ Forall (λ m, m ∈ importable k') required) ∨
    only_peak_finding_missing k' →
    (cell_import pip_installs again).1 ≠ None ∧
    importable again = importable k').
  { clear. induction n as [|n IH]; intros k' again Hk'; subst again.
    - simpl. split; [|done].
      destruct Hk' as [(Hsys & Hwget & Hreq)|Hpeak].
      + destruct (cell_import_before_sys k' Hsys Hwget) as (_ & _ & Hiff & _).
        by rewrite Hiff.
      + by destruct (cell_import_without_peak_finding k' Hpeak) as (-> & _).
    - rewrite Nat.iter_succ_r.
      destruct Hk' as [(Hsys & Hwget & Hreq)|Hpeak].
      + destruct (cell_import_before_sys k' Hsys Hwget)
          as (Himp & _ & Hiff & Hnext).
        destruct (IH (cell_import pip_installs k').2) as [? Hsame].
        * destruct Hnext as [[? ?]|Hpeak]; [by rewrite Hiff|..].
          -- left. by rewrite Himp.
          -- right.
             by destruct (cell_import_without_peak_finding k' Hpeak)
               as (_ & _ & ?).
        * split; [done|]. by rewrite Hsame.
      + destruct (cell_import_without_peak_finding k' Hpeak)
          as (_ & Himp & Hpeak').
        destruct (IH (cell_import pip_installs k').2) as [? Hsame];
          [by right|].
        split; [done|]. by rewrite Hsame. }
  apply Hinv. left. split; [done|]. split; [done|].
  destruct (cell_import_before_sys k Hsys Hwget) as (_ & _ & Hiff & _).
  by rewrite <- Hiff.
Qed.

(** X16. The fallback for a missing wget passes the name [wget], not the
    string: on a kernel in which wget cannot be imported and [wget] is not
    bound to a string the cell always fails and installs nothing, and when
    the name is unbound (and pip is there) the failure is the NameError of
    the call install(wget). *)
Theorem wget_fallback_passes_the_name k :
  "wget" ∉ importable k →
  (∀ p, bound k !! "wget" ≠ Some (Str p)) →
  let r := cell_import pip_installs k in
  r.1 ≠ None ∧
  importable r.2 = importable k ∧
  (∀ p, Pip p ∈ effects r.2 → Pip p ∈ effects k) ∧
  (bound k !! "wget" = None → "dask.array" ∈ importable k →
   "pip" ∈ importable k → r.1 = Some (Python (NameError "wget"))).
Proof.
  intros Hmissing Hwget r. subst r.
  destruct (cell_import pip_installs k) as [o k'] eqn:Hrun. revert Hrun.
  unfold cell_import.
  imp_simpl.
  all: try match goal with |- context [bound ?k0 !! "wget"] =>
    destruct (bound k0 !! "wget") as [[]|] eqn:Hw; imp_simpl;
    try (by destruct (Hwget _ eq_refl)) end.
  all: try match goal with |- context [bound ?k0 !! "sys"] =>
    destruct (bound k0 !! "sys") as [[]|] eqn:Hs; imp_simpl end.
  all: imp_end.
  all: split; [done|].
  all: split; [done|].
  all: split; [|done].
  all: intros p Hin; repeat (apply in_effects_snoc in Hin; [|done]); done.
Qed.

(** X17. With [sys] bound beforehand the fallback does install a missing
    joblib: pip runs once, for joblib, and the cell completes. *)
Theorem bound_sys_lets_joblib_install k :
  bound k !! "sys" = Some (Module "sys") →
  "joblib" ∉ importable k → "pip" ∈ importable k →
  "joblib" ∈ pip_installs "joblib" →
  Forall (λ m, m = "joblib" ∨ m ∈ importable k) required →
  let r := cell_import pip_installs k in
  r.1 = None ∧
  effects r.2 =
    effects k ++ [Warn "joblib not found.  Will install with pip.";
                  Pip "joblib"; PathAppend "./supporting_docs/"] ∧
  importable r.2 = list_to_set (pip_installs "joblib") ∪ importable k.
Proof.
  intros Hsys Hjoblib Hpip Hinst Hreq r. subst r.
  unfold required in Hreq. rewrite !Forall_cons, Forall_nil in Hreq.
  destruct Hreq as ([|?] & [|?] & [|?] & [|?] & [|?] & [|?] & [|?] & _ & [|?] & [|?] & _);
    try done.
  destruct (cell_import pip_installs k) as [o k'] eqn:Hrun. revert Hrun.
  unfold cell_import.
  imp_simpl.
  all: rewrite ?Hsys; imp_simpl.
  all: imp_end.
  by rewrite <- !app_assoc.
Qed.

End ImportCell.

(** What the statements establish and keep. *)
Section ImportLogic.
Import Imports.
Variable pip_installs : string -> list string.
Implicit Types (k : kernel) (a b : stmt) (Q : kernel -> Prop).

Lemma then_None a b k :
  ((a >> b) k).1 = None →
  (a k).1 = None ∧ (a >> b) k = b (a k).2.
Proof. unfold then_. destruct (a k) as [[f|] k1]; simpl; done. Qed.

Lemma post_then_r a b Q : post b Q → post (a >> b) Q.
Proof.
  intros Hb k Hrun. apply then_None in Hrun as Hab.
  destruct Hab as [_ Hab]. rewrite Hab in Hrun |- *. by apply Hb.
Qed.

Lemma keeps_then a b Q : keeps a Q → keeps b Q → keeps (a >> b) Q.
Proof.
  intros Ha Hb k HQ Hrun. apply then_None in Hrun as Hab.
  destruct Hab as [Hak Hab]. rewrite Hab in Hrun |- *.
  apply Hb; [by apply Ha|done].
Qed.

Lemma post_then_l a b Q : post a Q → keeps b Q → post (a >> b) Q.
Proof.
  intros Ha Hb k Hrun. apply then_None in Hrun as Hab.
  destruct Hab as [Hak Hab]. rewrite Hab in Hrun |- *.
  apply Hb; [by apply Ha|done].
Qed.

Lemma keeps_skip Q : keeps skip Q.
Proof. by intros k. Qed.

Lemma keeps_read n body Q : (∀ v, keeps (body v) Q) → keeps (read n body) Q.
Proof.
  intros Hbody k HQ. unfold read.
  destruct (bound k !! n) as [v|]; [by apply Hbody|done].
Qed.

Lemma keeps_if (c : kernel -> bool) a Q :
  keeps a Q → keeps (fun k => if c k then a k else (Some (ImportError ""), k)) Q.
Proof. intros Ha k HQ. destruct (c k); [by apply Ha|done]. Qed.

(** Importable modules stay importable. *)
Lemma keeps_found_bind_name m n v : keeps (bind_name n v) (found m).
Proof. by intros k. Qed.

Lemma keeps_found_bind_members m m' names :
  keeps (bind_members m' names) (found m).
Proof.
  induction names as [|n names IH]; [by intros k|].
  apply keeps_then; [apply keeps_found_bind_name|done].
Qed.

Lemma keeps_found_import_as m m' n : keeps (import_as m' n) (found m).
Proof. intros k HQ. unfold import_as. by case_bool_decide. Qed.

Lemma keeps_found_from_import m m' names :
  keeps (from_import m' names) (found m).
Proof.
  intros k HQ. unfold from_import.
  case_bool_decide; [by apply keeps_found_bind_members|done].
Qed.

Lemma keeps_found_attribute_of m m' attr v :
  keeps (attribute_of m' attr v) (found m).
Proof.
  intros k HQ. destruct v; simpl; try done. by case_bool_decide.
Qed.

Lemma keeps_found_do m e : keeps (do e) (found m).
Proof. by intros k. Qed.

Lemma keeps_found_install m p : keeps (install pip_installs p) (found m).
Proof.
  apply keeps_read. intros _.
  assert (∀ v, keeps (install_body pip_installs v) (found m)) as Hbody.
  { intros v. apply keeps_read. intros sp.
    apply keeps_then; [apply keeps_found_attribute_of|].
    apply keeps_read. intros sy.
    apply keeps_then; [apply keeps_found_attribute_of|].
    destruct v; try done.
    intros k HQ _. simpl. unfold found in *. simpl. set_solver. }
  destruct p; simpl; [by apply keeps_read|done].
Qed.

Lemma keeps_found_import_or_install m m' n msg p :
  keeps (import_or_install pip_installs m' n msg p) (found m).
Proof.
  intros k HQ. unfold import_or_install.
  case_bool_decide as Hin; [done|]. clear Hin. revert k HQ.
  repeat apply keeps_then.
  - apply keeps_read. intros _. apply keeps_found_do.
  - apply keeps_found_import_as.
  - apply keeps_found_install.
  - apply keeps_found_import_as.
Qed.

Lemma post_import_as m n : post (import_as m n) (found m).
Proof. intros k. unfold import_as. by case_bool_decide. Qed.

Lemma post_from_import m names : post (from_import m names) (found m).
Proof.
  intros k. unfold from_import.
  case_bool_decide; [|done]. intros Hrun.
  by apply keeps_found_bind_members.
Qed.

Lemma post_import_or_install m n msg p :
  post (import_or_install pip_installs m n msg p) (found m).
Proof.
  intros k. unfold import_or_install.
  case_bool_decide as Hin; [done|]. clear Hin. revert k.
  do 3 apply post_then_r. apply post_import_as.
Qed.

(** A binding stays until the name is bound again. *)
Lemma keeps_bound_bind_name n v n' v' :
  n' ≠ n → keeps (bind_name n' v') (bound_to n v).
Proof. intros ? k HQ _. unfold bound_to in *. simpl. by rewrite lookup_insert_ne. Qed.

Lemma post_bind_name n v : post (bind_name n v) (bound_to n v).
Proof. intros k _. unfold bound_to. simpl. by rewrite lookup_insert_eq. Qed.

Lemma keeps_bound_bind_members n v m names :
  n ∉ names → keeps (bind_members m names) (bound_to n v).
Proof.
  induction names as [|n' names IH]; [by intros _ k|].
  intros [? ?]%not_elem_of_cons.
  apply keeps_then; [by apply keeps_bound_bind_name|by apply IH].
Qed.

Lemma post_bind_members m n names :
  n ∈ names → post (bind_members m names) (bound_to n (Member m n)).
Proof.
  induction names as [|n' names IH]; [by intros ?%elem_of_nil|].
  intros Hin. destruct (decide (n ∈ names)) as [?|Hnot].
  - apply post_then_r. by apply IH.
  - apply elem_of_cons in Hin as [->|?]; [|done].
    apply post_then_l; [apply post_bind_name|].
    by apply keeps_bound_bind_members.
Qed.

Lemma keeps_bound_import_as n v m n' :
  n' ≠ n → keeps (import_as m n') (bound_to n v).
Proof.
  intros ? k HQ. unfold import_as.
  case_bool_decide; [by apply keeps_bound_bind_name|done].
Qed.

Lemma post_import_as_name m n : post (import_as m n) (bound_to n (Module m)).
Proof.
  intros k. unfold import_as.
  case_bool_decide; [|done]. intros _. by apply post_bind_name.
Qed.

Lemma keeps_bound_from_import n v m names :
  n ∉ names → keeps (from_import m names) (bound_to n v).
Proof.
  intros ? k HQ. unfold from_import.
  case_bool_decide; [by apply keeps_bound_bind_members|done].
Qed.

Lemma post_from_import_name m n names :
  n ∈ names → post (from_import m names) (bound_to n (Member m n)).
Proof.
  intros ? k. unfold from_import.
  case_bool_decide; [|done]. by apply post_bind_members.
Qed.

Lemma keeps_bound_attribute_of n v m attr w :
  keeps (attribute_of m attr w) (bound_to n v).
Proof.
  intros k HQ. destruct w; simpl; try done. by case_bool_decide.
Qed.

Lemma keeps_bound_do n v e : keeps (do e) (bound_to n v).
Proof. by intros k. Qed.

Lemma keeps_bound_install n v p : keeps (install pip_installs p) (bound_to n v).
Proof.
  apply keeps_read. intros _.
  assert (∀ w, keeps (install_body pip_installs w) (bound_to n v)) as Hbody.
  { intros w. apply keeps_read. intros sp.
    apply keeps_then; [apply keeps_bound_attribute_of|].
    apply keeps_read. intros sy.
    apply keeps_then; [apply keeps_bound_attribute_of|].
    destruct w; by intros k. }
  destruct p; simpl; [by apply keeps_read|done].
Qed.

Lemma keeps_bound_import_or_install n v m n' msg p :
  n' ≠ n → n ≠ "pip" →
  keeps (import_or_install pip_installs m n' msg p) (bound_to n v).
Proof.
  intros ? ? k HQ. unfold import_or_install.
  case_bool_decide as Hin; [by apply keeps_bound_bind_name|].
  clear Hin. revert k HQ.
  repeat apply keeps_then.
  - apply keeps_read. intros _. apply keeps_bound_do.
  - by apply keeps_bound_import_as.
  - apply keeps_bound_install.
  - by apply keeps_bound_import_as.
Qed.

Lemma post_import_or_install_name m n msg p :
  post (import_or_install pip_installs m n msg p) (bound_to n (Module m)).
Proof.
  intros k. unfold import_or_install.
  case_bool_decide as Hin; [intros _; by apply post_bind_name|].
  clear Hin. revert k. do 3 apply post_then_r. apply post_import_as_name.
Qed.

End ImportLogic.

Ltac imp_keeps :=
  repeat first
    [ apply keeps_skip
    | apply keeps_found_bind_name | apply keeps_found_bind_members
    | apply keeps_found_import_as | apply keeps_found_from_import
    | apply keeps_found_import_or_install | apply keeps_found_do
    | apply keeps_found_attribute_of
    | apply keeps_bound_do | apply keeps_bound_attribute_of
    | apply keeps_bound_bind_name; done
    | apply keeps_bound_bind_members; solve_notin
    | apply keeps_bound_import_as; done
    | apply keeps_bound_from_import; solve_notin
    | apply keeps_bound_import_or_install; done
    | apply keeps_read; intros ?
    | apply keeps_then ].

Ltac imp_establish :=
  first
    [ apply post_import_as | apply post_from_import
    | apply post_import_or_install
    | apply post_bind_name | apply post_import_as_name
    | apply post_import_or_install_name
    | apply post_bind_members; solve_in
    | apply post_from_import_name; solve_in ].

(** The last statement that establishes the property, and the statements
    after it keep it. *)
Ltac imp_post :=
  first
    [ apply post_then_r; imp_post
    | apply post_then_l; [imp_establish | solve [imp_keeps]]
    | imp_establish ].

Section ImportCellPost.
Import Imports.
Variable pip_installs : string -> list string.
Implicit Types k : kernel.

(** X18. A run that completes leaves every third-party module importable and
    the names the later cells use bound to what the cell imports, whichever
    way it went through the fallbacks. *)
Theorem completed_import_cell_binds_names k :
  let r := cell_import pip_installs k in
  r.1 = None →
  Forall (λ m, m ∈ importable r.2) required ∧
  bound r.2 !! "os" = Some (Module "os") ∧
  bound r.2 !! "wget" = Some (Module "wget") ∧
  bound r.2 !! "h5py" = Some (Module "h5py") ∧
  bound r.2 !! "usid" = Some (Module "pyUSID") ∧
  bound r.2 !! "plt" = Some (Module "matplotlib.pyplot") ∧
  bound r.2 !! "time" = Some (Module "time") ∧
  bound r.2 !! "Client" = Some (Member "dask.distributed" "Client") ∧
  bound r.2 !! "find_all_peaks" =
    Some (Member "peak_finding" "find_all_peaks").
Proof.
  intros r Hrun. subst r.
  assert (∀ m, post (cell_import pip_installs) (found m) →
               m ∈ importable (cell_import pip_installs k).2) as Hfound.
  { intros m Hpost. by apply Hpost. }
  assert (∀ n v, post (cell_import pip_installs) (bound_to n v) →
                 bound (cell_import pip_installs k).2 !! n = Some v) as Hbound.
  { intros n v Hpost. by apply Hpost. }
  unfold required. rewrite !Forall_cons, Forall_nil. repeat split.
  all: cbv beta; first [apply Hfound | apply Hbound].
  all: unfold cell_import, import_std, from_std.
  all: imp_post.
Qed.
End ImportCellPost.

(** *** The import cell on concrete kernels *)

Lemma import_cell_installs_nothing_before_sys_witness :
  Imports.bound Imports.no_joblib !! "sys" = None ∧
  (∀ p, Imports.bound Imports.no_joblib !! "wget" ≠ Some (Imports.Str p)) ∧
  Imports.importable (Imports.cell_import Imports.pip_works Imports.no_joblib).2 =
    Imports.importable Imports.no_joblib ∧
  ((Imports.cell_import Imports.pip_works Imports.no_joblib).1 = None ↔
   Forall (λ m, m ∈ Imports.importable Imports.no_joblib) Imports.required).
Proof.
  assert (Imports.bound Imports.no_joblib !! "sys" = None) as H1
    by (vm_compute; reflexivity).
  assert (∀ p, Imports.bound Imports.no_joblib !! "wget" ≠ Some (Imports.Str p))
    as H2 by (intros p; vm_compute; discriminate).
  destruct (import_cell_installs_nothing_before_sys Imports.pip_works
              Imports.no_joblib H1 H2) as (Hsame & _ & Hiff).
  split; [exact H1|]. split; [exact H2|]. split; [exact Hsame|exact Hiff].
Defined.

Lemma failed_import_cell_fails_again_witness :
  Imports.bound Imports.no_joblib !! "sys" = None ∧
  (∀ p, Imports.bound Imports.no_joblib !! "wget" ≠ Some (Imports.Str p)) ∧
  (Imports.cell_import Imports.pip_works Imports.no_joblib).1 ≠ None ∧
  (Imports.cell_import Imports.pip_works
     (Nat.iter 2 (λ k', (Imports.cell_import Imports.pip_works k').2)
        Imports.no_joblib)).1 ≠ None.
Proof.
  assert (Imports.bound Imports.no_joblib !! "sys" = None) as H1
    by (vm_compute; reflexivity).
  assert (∀ p, Imports.bound Imports.no_joblib !! "wget" ≠ Some (Imports.Str p))
    as H2 by (intros p; vm_compute; discriminate).
  assert ((Imports.cell_import Imports.pip_works Imports.no_joblib).1 ≠ None)
    as H3 by (vm_compute; discriminate).
  destruct (failed_import_cell_fails_again Imports.pip_works Imports.no_joblib 2
              H1 H2 H3) as (Hfail & _).
  split; [exact H1|]. split; [exact H2|]. split; [exact H3|exact Hfail].
Defined.

Lemma wget_fallback_passes_the_name_witness :
  ("wget" ∉ Imports.importable Imports.no_wget) ∧
  (∀ p, Imports.bound Imports.no_wget !! "wget" ≠ Some (Imports.Str p)) ∧
  Imports.bound Imports.no_wget !! "wget" = None ∧
  "dask.array" ∈ Imports.importable Imports.no_wget ∧
  "pip" ∈ Imports.importable Imports.no_wget ∧
  (Imports.cell_import Imports.pip_works Imports.no_wget).1 =
    Some (Imports.Python (NameError "wget")).
Proof.
  assert ("wget" ∉ Imports.importable Imports.no_wget) as H1
    by (apply (bool_decide_unpack _); vm_compute; reflexivity).
  assert (∀ p, Imports.bound Imports.no_wget !! "wget" ≠ Some (Imports.Str p))
    as H2 by (intros p; vm_compute; discriminate).
  assert (Imports.bound Imports.no_wget !! "wget" = None) as H3
    by (vm_compute; reflexivity).
  assert ("dask.array" ∈ Imports.importable Imports.no_wget) as H4
    by (apply (bool_decide_unpack _); vm_compute; reflexivity).
  assert ("pip" ∈ Imports.importable Imports.no_wget) as H5
    by (apply (bool_decide_unpack _); vm_compute; reflexivity).
  destruct (wget_fallback_passes_the_name Imports.pip_works Imports.no_wget H1 H2)
    as (_ & _ & _ & Hname).
  split; [exact H1|]. split; [exact H2|]. split; [exact H3|]. split; [exact H4|].
  split; [exact H5|]. exact (Hname H3 H4 H5).
Defined.

Lemma bound_sys_lets_joblib_install_witness :
  Imports.bound Imports.sys_by_hand !! "sys" = Some (Imports.Module "sys") ∧
  ("joblib" ∉ Imports.importable Imports.sys_by_hand) ∧
  "pip" ∈ Imports.importable Imports.sys_by_hand ∧
  "joblib" ∈ Imports.pip_works "joblib" ∧
  Forall (λ m, m = "joblib" ∨ m ∈ Imports.importable Imports.sys_by_hand)
    Imports.required ∧
  (Imports.cell_import Imports.pip_works Imports.sys_by_hand).1 = None ∧
  Imports.effects (Imports.cell_import Imports.pip_works Imports.sys_by_hand).2 =
    Imports.effects Imports.sys_by_hand ++
      [Imports.Warn "joblib not found.  Will install with pip.";
       Imports.Pip "joblib"; Imports.PathAppend "./supporting_docs/"].
Proof.
  assert (Imports.bound Imports.sys_by_hand !! "sys" = Some (Imports.Module "sys"))
    as H1 by (vm_compute; reflexivity).
  assert ("joblib" ∉ Imports.importable Imports.sys_by_hand) as H2
    by (apply (bool_decide_unpack _); vm_compute; reflexivity).
  assert ("pip" ∈ Imports.importable Imports.sys_by_hand) as H3
    by (apply (bool_decide_unpack _); vm_compute; reflexivity).
  assert ("joblib" ∈ Imports.pip_works "joblib") as H4
    by (apply (bool_decide_unpack _); vm_compute; reflexivity).
  assert (Forall (λ m, m = "joblib" ∨ m ∈ Imports.importable Imports.sys_by_hand)
            Imports.required) as H5
    by (apply (bool_decide_unpack _); vm_compute; reflexivity).
  destruct (bound_sys_lets_joblib_install Imports.pip_works Imports.sys_by_hand
              H1 H2 H3 H4 H5) as (Hok & Heff & _).
  split; [exact H1|]. split; [exact H2|]. split; [exact H3|]. split; [exact H4|].
  split; [exact H5|]. split; [exact Hok|exact Heff].
Defined.

Lemma completed_import_cell_binds_names_witness :
  (Imports.cell_import Imports.pip_works (Imports.fresh Imports.required)).1 = None ∧
  Forall (λ m, m ∈ Imports.importable
                 (Imports.cell_import Imports.pip_works
                    (Imports.fresh Imports.required)).2) Imports.required ∧
  Imports.bound (Imports.cell_import Imports.pip_works
                   (Imports.fresh Imports.required)).2 !! "usid" =
    Some (Imports.Module "pyUSID").
Proof.
  assert ((Imports.cell_import Imports.pip_works
             (Imports.fresh Imports.required)).1 = None) as H1
    by (vm_compute; reflexivity).
  destruct (completed_import_cell_binds_names Imports.pip_works
              (Imports.fresh Imports.required) H1)
    as (Hfound & _ & _ & _ & Husid & _).
  split; [exact H1|]. split; [exact Hfound|exact Husid].
Defined.
